(** * passport-browserid: the BrowserID verification strategy

    A shallow embedding of [lib/passport-browserid/strategy.js]: the
    [Strategy] constructor, [Strategy.prototype.authenticate] with its
    response handlers, and the inner functions [verified] and [done].

    JavaScript values are a small inductive type, exceptions are an explicit
    completion, and everything the strategy does to the outside world (the
    outbound request, the call of the application's verify callback, the
    three outcome callbacks of the host framework, an exception nobody
    catches) is recorded in an event trace.  The request body is an object
    with a prototype chain, the chunks of the response are strings or
    buffers, and the host framework's callbacks may throw. *)

From stdpp Require Import gmap strings list pretty.
From Stdlib Require Import ZArith String Ascii.

Local Open Scope string_scope.

Set Warnings "-register-all".

(** ** JavaScript values *)

(** The values that travel through the strategy.  Numbers are the
    integer-valued ones; an [Error] object keeps its [name] and [message];
    a function is known by its name. *)
Inductive JsVal : Type :=
| JUndefined
| JNull
| JBool (b : bool)
| JNum (n : Z)
| JStr (s : string)
| JArr (items : list JsVal)
| JObj (props : list (string * JsVal))
| JError (name : string) (message : JsVal)
| JFunction (name : string).

(** ToBoolean: [undefined], [null], [false], [0] and [''] are falsy. *)
Definition truthy (v : JsVal) : bool :=
  match v with
  | JUndefined | JNull => false
  | JBool b => b
  | JNum n => negb (n =? 0)%Z
  | JStr s => negb (String.eqb s "")
  | JArr _ | JObj _ | JError _ _ | JFunction _ => true
  end.

(** [a || b] *)
Definition or_else (a b : JsVal) : JsVal := if truthy a then a else b.

(** [v === s] for a string literal [s]. *)
Definition strict_eq_str (v : JsVal) (s : string) : bool :=
  match v with
  | JStr t => String.eqb t s
  | _ => false
  end.

(** ToString, as used when a value serves as a property key. *)
Fixpoint ToString (v : JsVal) : string :=
  match v with
  | JUndefined => "undefined"
  | JNull => "null"
  | JBool true => "true"
  | JBool false => "false"
  | JNum n => pretty n
  | JStr s => s
  | JArr items =>
      String.concat ","
        (map (fun x => match x with
                       | JUndefined | JNull => ""
                       | _ => ToString x
                       end) items)
  | JObj _ => "[object Object]"
  | JError name message =>
      let msg := match message with JUndefined => "" | _ => ToString message end in
      if String.eqb name "" then msg
      else if String.eqb msg "" then name
      else name ++ ": " ++ msg
  | JFunction name => "function " ++ name ++ "() { [native code] }"
  end.

(** Normal or abrupt completion of a piece of JavaScript. *)
Inductive Completion (A : Type) : Type :=
| Normal (a : A)
| Throw (e : JsVal).
Arguments Normal {A} a.
Arguments Throw {A} e.

(** [new Error(message)] and the [TypeError] of a property read on
    [undefined] or [null]. *)
Definition Error_ (message : string) : JsVal := JError "Error" (JStr message).

Definition TypeError (message : string) : JsVal := JError "TypeError" (JStr message).

Fixpoint own_property (props : list (string * JsVal)) (k : string) : JsVal :=
  match props with
  | [] => JUndefined
  | (k', v) :: rest => if String.eqb k' k then v else own_property rest k
  end.

(** [v.k] for the property names the strategy reads from a parsed response
    ([status], [reason], [email]): none of them is defined on a built-in
    prototype, so they are own properties of an object and [undefined] on
    every other value, except that reading from [undefined] or [null]
    throws. *)
Definition get (v : JsVal) (k : string) : Completion JsVal :=
  match v with
  | JUndefined => Throw (TypeError ("Cannot read property '" ++ k ++ "' of undefined"))
  | JNull => Throw (TypeError ("Cannot read property '" ++ k ++ "' of null"))
  | JObj props => Normal (own_property props k)
  | JError name message =>
      Normal (if String.eqb k "name" then JStr name
              else if String.eqb k "message" then message
              else JUndefined)
  | JBool _ | JNum _ | JStr _ | JArr _ | JFunction _ => Normal JUndefined
  end.

(** Modelled from the spec: [./errors/badrequesterror] is not among the
    sources; the spec calls it a bad-request indicator carrying its message. *)
Definition BadRequestError (message : JsVal) : JsVal := JError "BadRequestError" message.

(** Modelled from the spec: [./errors/verificationerror] is not among the
    sources; the spec describes a verification-failure indicator whose
    message is the value it is constructed with. *)
Definition VerificationError (message : JsVal) : JsVal := JError "VerificationError" message.

(** ** querystring.stringify *)

(** The characters [encodeURIComponent] leaves alone. *)
Definition unreserved (c : ascii) : bool :=
  let n := nat_of_ascii c in
  ((48 <=? n) && (n <=? 57)
   || (65 <=? n) && (n <=? 90)
   || (97 <=? n) && (n <=? 122)
   || existsb (Ascii.eqb c) (list_ascii_of_string "-_.!~*'()"))%nat.

Definition hex_digit (n : nat) : ascii :=
  nth n (list_ascii_of_string "0123456789ABCDEF") "0"%char.

(** [querystring.escape]: a string is the sequence of its UTF-8 bytes; every
    byte that is not unreserved becomes [%XX]. *)
Fixpoint escape (s : string) : string :=
  match s with
  | EmptyString => EmptyString
  | String c rest =>
      if unreserved c then String c (escape rest)
      else
        let n := nat_of_ascii c in
        String "%" (String (hex_digit (n / 16)) (String (hex_digit (n mod 16)) (escape rest)))
  end.

Definition stringifyPrimitive (v : JsVal) : string :=
  match v with
  | JStr s => s
  | JBool true => "true"
  | JBool false => "false"
  | JNum n => pretty n
  | _ => ""
  end.

(** [querystring.stringify(obj)] for an object literal given by its
    properties in insertion order, with the default separators. *)
Definition querystring_stringify (obj : list (string * JsVal)) : string :=
  String.concat "&"
    (map (fun '(k, v) =>
            let ks := escape k ++ "=" in
            match v with
            | JArr items =>
                String.concat "&" (map (fun x => ks ++ escape (stringifyPrimitive x)) items)
            | _ => ks ++ escape (stringifyPrimitive v)
            end) obj).

(** ** The world around the strategy *)

(** The parsed body is a JavaScript object: it has entries of its own, and
    a property that is not among them is looked up along its prototype
    chain, whose properties are [inherited]. *)
Record Body : Type := {
  own : gmap string JsVal;
  inherited : gmap string JsVal
}.

(** [body[k]] *)
Definition read (b : Body) (k : string) : JsVal :=
  match own b !! k with
  | Some v => v
  | None => default JUndefined (inherited b !! k)
  end.

(** What an object created by a literal or by a body parser inherits from
    [Object.prototype]: its methods, and [__proto__], the prototype
    itself. *)
Definition Object_prototype : gmap string JsVal :=
  list_to_map
    [("constructor", JFunction "Object");
     ("hasOwnProperty", JFunction "hasOwnProperty");
     ("isPrototypeOf", JFunction "isPrototypeOf");
     ("propertyIsEnumerable", JFunction "propertyIsEnumerable");
     ("toLocaleString", JFunction "toLocaleString");
     ("toString", JFunction "toString");
     ("valueOf", JFunction "valueOf");
     ("__defineGetter__", JFunction "__defineGetter__");
     ("__defineSetter__", JFunction "__defineSetter__");
     ("__lookupGetter__", JFunction "__lookupGetter__");
     ("__lookupSetter__", JFunction "__lookupSetter__");
     ("__proto__", JObj [])].

(** [{ ...entries }] *)
Definition plain (entries : gmap string JsVal) : Body :=
  {| own := entries; inherited := Object_prototype |}.

(** The incoming request: the strategy reads nothing but the parsed body,
    which is absent when no body parser ran. *)
Record Request : Type := { body : option Body }.

(** The three outcomes of the host framework. *)
Inductive Outcome : Type :=
| Success (user info : JsVal)
| Fail (info : JsVal)
| Error (err : JsVal).

(** Positional arguments of the application's verify callback. *)
Inductive Arg : Type :=
| AReq (req : Request)
| AVal (v : JsVal)
| ADone.

(** The [options] object handed to [https.request]. *)
Record RequestOptions : Type := {
  host : string;
  path : string;
  method : string;
  headers : list (string * JsVal)
}.

Inductive Event : Type :=
| Outbound (options : RequestOptions) (payload encoding : string)
| CallVerify (args : list Arg)
| Report (o : Outcome)
| Uncaught (e : JsVal).

(** What an application's verify callback does with the completion function
    it is given: while it runs it may call [done] and may throw; after it has
    returned it may call [done] again from later callbacks. *)
Inductive VStep : Type :=
| CallDone (err user info : JsVal)
| ThrowNow (e : JsVal).

Record VerifyRun : Type := {
  during : list VStep;
  afterwards : list (JsVal * JsVal * JsVal)
}.

Definition Verify : Type := list Arg -> VerifyRun.

(** A chunk of a response: a string, when the stream has an encoding, or
    else a [Buffer], given by its bytes. *)
Inductive Chunk : Type :=
| Text (s : string)
| Bytes (b : string).

(** What the transport does with one request: it emits ['error'] on the
    request object, or it calls back with a response that emits a sequence
    of ['data'], ['end'] and ['error'] events. *)
Inductive ResEvent : Type :=
| Data (chunk : Chunk)
| End
| ResError (err : JsVal).

Inductive TransportRun : Type :=
| RequestError (e : JsVal)
| Response (events : list ResEvent).

Definition Transport : Type := RequestOptions -> string -> TransportRun.

(** The constructor's [options]: the data options by name, and the
    [transport] option, the only one that holds a host object. *)
Record Options : Type := {
  fields : gmap string JsVal;
  transport : option Transport
}.

(** [options.k] for a data option. *)
Definition opt (options : Options) (k : string) : JsVal :=
  default JUndefined (fields options !! k).

(** The state the constructor leaves in [this]. *)
Record StrategyInstance : Type := {
  name : string;
  _verify : Verify;
  _passReqToCallback : JsVal;
  _audience : JsVal;
  _assertionField : JsVal;
  _https : Transport
}.

(** ** Effects: an event trace with exceptions *)

(** A computation emits events while it runs, schedules events for after the
    running callback has returned, and completes normally or by throwing. *)
Record Eff (A : Type) : Type := mkEff {
  emitted : list Event;
  deferred : list Event;
  completion : Completion A
}.
Arguments mkEff {A} emitted deferred completion.
Arguments emitted {A} _.
Arguments deferred {A} _.
Arguments completion {A} _.

#[global] Instance Eff_ret : MRet Eff := fun A a => mkEff [] [] (Normal a).

#[global] Instance Eff_bind : MBind Eff := fun A B k m =>
  match completion m with
  | Normal a =>
      mkEff (emitted m ++ emitted (k a)) (deferred m ++ deferred (k a)) (completion (k a))
  | Throw e => mkEff (emitted m) (deferred m) (Throw e)
  end.

Definition emit (ev : Event) : Eff unit := mkEff [ev] [] (Normal tt).

Definition throw {A : Type} (e : JsVal) : Eff A := mkEff [] [] (Throw e).

Definition lift {A : Type} (c : Completion A) : Eff A := mkEff [] [] c.

(** Run [m] not now but after the running callback has returned; an
    exception it throws then has nobody to catch it. *)
Definition postpone (m : Eff unit) : Eff unit :=
  mkEff [] (emitted m ++ deferred m ++
            match completion m with Normal _ => [] | Throw e => [Uncaught e] end)
        (Normal tt).

(** [try { body } catch (e) { handler e }] *)
Definition try_catch {A : Type} (body : Eff A) (handler : JsVal -> Eff A) : Eff A :=
  match completion body with
  | Normal a => body
  | Throw e =>
      mkEff (emitted body ++ emitted (handler e))
            (deferred body ++ deferred (handler e))
            (completion (handler e))
  end.

(** One callback run by the event loop: what it emitted, the exception it
    let escape, then what it scheduled. *)
Definition tick (m : Eff unit) : list Event :=
  emitted m ++
  match completion m with Normal _ => [] | Throw e => [Uncaught e] end ++
  deferred m.

(** The outcomes reported in a trace, in order. *)
Fixpoint outcomes (trace : list Event) : list Outcome :=
  match trace with
  | [] => []
  | Report o :: rest => o :: outcomes rest
  | _ :: rest => outcomes rest
  end.

(** The outbound calls made in a trace. *)
Fixpoint outbound (trace : list Event) : list (RequestOptions * string * string) :=
  match trace with
  | [] => []
  | Outbound o p e :: rest => (o, p, e) :: outbound rest
  | _ :: rest => outbound rest
  end.

(** The argument lists with which the verify callback was called. *)
Fixpoint verify_calls (trace : list Event) : list (list Arg) :=
  match trace with
  | [] => []
  | CallVerify args :: rest => args :: verify_calls rest
  | _ :: rest => verify_calls rest
  end.

(** The exceptions that reached the event loop. *)
Fixpoint uncaught (trace : list Event) : list JsVal :=
  match trace with
  | [] => []
  | Uncaught e :: rest => e :: uncaught rest
  | _ :: rest => uncaught rest
  end.

(** ** Fixtures for running the model *)

Module Fixture.

(** A parser for the flat objects with string members that the verifier
    answers with, without white space or escapes; anything else is a
    [SyntaxError].  It stands in for [JSON.parse] on concrete runs. *)
Definition dquote : ascii := ascii_of_nat 34.

Definition quoted (s : string) : string := String dquote (s ++ String dquote "").

Definition SyntaxError : JsVal := JError "SyntaxError" (JStr "Unexpected token").

Fixpoint read_string (s : string) : option (string * string) :=
  match s with
  | EmptyString => None
  | String c rest =>
      if Ascii.eqb c dquote then Some ("", rest)
      else '(t, rest') ← read_string rest; Some (String c t, rest')
  end.

Definition read_member (s : string) : option (string * JsVal * string) :=
  match s with
  | String q rest =>
      if Ascii.eqb q dquote then
        '(k, rest) ← read_string rest;
        match rest with
        | String ":" (String q' rest) =>
            if Ascii.eqb q' dquote then
              '(v, rest) ← read_string rest; Some (k, JStr v, rest)
            else None
        | _ => None
        end
      else None
  | EmptyString => None
  end.

Fixpoint read_members (fuel : nat) (s : string) : option (list (string * JsVal)) :=
  match fuel with
  | O => None
  | S fuel =>
      '(k, v, rest) ← read_member s;
      match rest with
      | String "}" EmptyString => Some [(k, v)]
      | String "," rest => members ← read_members fuel rest; Some ((k, v) :: members)
      | _ => None
      end
  end.

Definition parse_flat (s : string) : Completion JsVal :=
  match s with
  | String "{" (String "}" EmptyString) => Normal (JObj [])
  | String "{" rest =>
      match read_members (String.length rest) rest with
      | Some members => Normal (JObj members)
      | None => Throw SyntaxError
      end
  | _ => Throw SyntaxError
  end.

(** The verifier's two kinds of answer. *)
Definition okay_response (email : string) : string :=
  "{" ++ quoted "status" ++ ":" ++ quoted "okay" ++ ","
      ++ quoted "email" ++ ":" ++ quoted email ++ "}".

Definition failure_response (reason : string) : string :=
  "{" ++ quoted "status" ++ ":" ++ quoted "failure" ++ ","
      ++ quoted "reason" ++ ":" ++ quoted reason ++ "}".

(** The decoding of a [Buffer] that holds ASCII bytes only, as all the
    buffers of the concrete runs do: the text is the bytes. *)
Definition ascii_text (bytes : string) : string := bytes.

(** A host framework whose outcome callbacks return. *)
Definition returning : Outcome -> option JsVal := fun _ => None.

(** Transports: one that answers every request with the given buffers and
    then ['end'], one whose connection fails before any response. *)
Definition answering (buffers : list string) : Transport :=
  fun _ _ => Response (map Data (map Bytes buffers) ++ [End]).

Definition refusing (e : JsVal) : Transport := fun _ _ => RequestError e.

Definition ECONNREFUSED : JsVal := Error_ "connect ECONNREFUSED".

(** Verify callbacks, by what they do with [done]. *)
Definition calls_back (err user info : JsVal) : Verify :=
  fun _ => {| during := [CallDone err user info]; afterwards := [] |}.

Definition calls_back_later (err user info : JsVal) : Verify :=
  fun _ => {| during := []; afterwards := [(err, user, info)] |}.


Definition never_calls_back : Verify :=
  fun _ => {| during := []; afterwards := [] |}.

Definition throws (e : JsVal) : Verify :=
  fun _ => {| during := [ThrowNow e]; afterwards := [] |}.

Definition alice : JsVal := JObj [("id", JNum 1)].

Definition request_with (assertion : string) : Request :=
  {| body := Some (plain {["assertion" := JStr assertion]}) |}.

Definition empty_request : Request := {| body := None |}.

(** A strategy for audience [http://example.com], built by the
    constructor's own assignments. *)
Definition example_options (t : Transport) : Options :=
  {| fields := {["audience" := JStr "http://example.com"]}; transport := Some t |}.

Definition example_strategy (t : Transport) (verify : Verify) : StrategyInstance :=
  {| name := "browserid";
     _verify := verify;
     _passReqToCallback := JUndefined;
     _audience := JStr "http://example.com";
     _assertionField := JStr "assertion";
     _https := t |}.

End Fixture.

(** ** The strategy *)

Section Strategy.

(** The platform: [JSON.parse], the decoding of a [Buffer] that string
    concatenation applies to it ([Buffer.prototype.toString]), and the
    [https] module that serves as the transport when the options name none. *)
Variable JSON_parse : string -> Completion JsVal.
Variable Buffer_toString : string -> string.
Variable https : Transport.

(** The host framework: what its callback for an outcome throws, if it
    does not return. *)
Variable host_throws : Outcome -> option JsVal.

(** A call of one of the host framework's outcome callbacks: the outcome
    is reported, and the callback returns or throws. *)
Definition invoke (o : Outcome) : Eff unit :=
  mkEff [Report o] []
        (match host_throws o with
         | Some e => Throw e
         | None => Normal tt
         end).

(** [self.success], [self.fail], [self.error] *)
Definition success (user info : JsVal) : Eff unit := invoke (Success user info).

Definition fail (info : JsVal) : Eff unit := invoke (Fail info).

Definition error (err : JsVal) : Eff unit := invoke (Error err).

(** [function Strategy(options, verify)]; [verify] is [None] when the
    argument is not supplied. *)
Definition Strategy (options : Options) (verify : option Verify)
  : Completion StrategyInstance :=
  if negb (truthy (opt options "audience")) then
    Throw (Error_ "BrowserID authentication requires an audience option")
  else
    match verify with
    | None => Throw (Error_ "BrowserID authentication strategy requires a verify function")
    | Some verify =>
        Normal {| name := "browserid";
                  _verify := verify;
                  _passReqToCallback := opt options "passReqToCallback";
                  _audience := opt options "audience";
                  _assertionField := or_else (opt options "assertionField") (JStr "assertion");
                  _https := default https (transport options) |}
    end.

(** [function done(err, user, info)] inside [verified]. *)
Definition done (err user info : JsVal) : Eff unit :=
  if truthy err then error err
  else if negb (truthy user) then fail info
  else success user info.

(** One step of the callback; what a call of [done] throws is not caught
    by the callback and ends its run. *)
Definition run_step (s : VStep) : Eff unit :=
  match s with
  | CallDone err user info => done err user info
  | ThrowNow e => throw e
  end.

Fixpoint run_steps (steps : list VStep) : Eff unit :=
  match steps with
  | [] => mret tt
  | s :: rest => _ ← run_step s; run_steps rest
  end.

Fixpoint done_later (calls : list (JsVal * JsVal * JsVal)) : Eff unit :=
  match calls with
  | [] => mret tt
  | (err, user, info) :: rest => _ ← postpone (done err user info); done_later rest
  end.

(** [self._verify(args...)]: the call itself, then what the callback does
    with [done].  The calls it has arranged for later are made whether or
    not it goes on to throw. *)
Definition call_verify (self : StrategyInstance) (args : list Arg) : Eff unit :=
  _ ← emit (CallVerify args);
  _ ← done_later (afterwards (_verify self args));
  run_steps (during (_verify self args)).

(** [function verified(result)] *)
Definition verified (self : StrategyInstance) (req : Request) (result : JsVal) : Eff unit :=
  if truthy (_passReqToCallback self) then
    email ← lift (get result "email");
    call_verify self [AReq req; AVal email; ADone]
  else
    email ← lift (get result "email");
    call_verify self [AVal email; ADone].

(** The handler of the response's ['end'] event. *)
Definition on_end (self : StrategyInstance) (req : Request) (data : string) : Eff unit :=
  try_catch
    (result ← lift (JSON_parse data);
     status ← lift (get result "status");
     if strict_eq_str status "okay" then
       verified self req result
     else
       reason ← lift (get result "reason");
       error (VerificationError reason))
    (fun e => error e).

(** What [data += chunk] appends: the string itself, or the decoding of
    the [Buffer], each chunk on its own. *)
Definition chunk_text (chunk : Chunk) : string :=
  match chunk with
  | Text s => s
  | Bytes b => Buffer_toString b
  end.

(** The response callback: [data] accumulates the chunks; every ['end']
    runs [on_end] on what has arrived, every ['error'] reports it. *)
Fixpoint on_response (self : StrategyInstance) (req : Request) (data : string)
    (events : list ResEvent) : list Event :=
  match events with
  | [] => []
  | Data chunk :: rest => on_response self req (data ++ chunk_text chunk) rest
  | End :: rest => tick (on_end self req data) ++ on_response self req data rest
  | ResError err :: rest => tick (error err) ++ on_response self req data rest
  end.

(** The [query], [headers] and [options] that [authenticate] builds for an
    assertion. *)
Definition verify_query (self : StrategyInstance) (assertion : JsVal) : string :=
  querystring_stringify [("assertion", assertion); ("audience", _audience self)].

Definition verify_headers (query : string) : list (string * JsVal) :=
  [("Host", JStr "verifier.login.persona.org");
   ("Content-Type", JStr "application/x-www-form-urlencoded");
   ("Content-Length", JNum (Z.of_nat (String.length query)))].

Definition verify_options (query : string) : RequestOptions :=
  {| host := "verifier.login.persona.org";
     path := "/verify";
     method := "POST";
     headers := verify_headers query |}.

(** [req.body[this._assertionField]], for a body that is there. *)
Definition assertion_of (self : StrategyInstance) (params : Body) : JsVal :=
  read params (ToString (_assertionField self)).

(** [Strategy.prototype.authenticate = function(req)].  No ['error']
    listener is put on the request object [vreq], so an ['error'] it emits
    is raised by the emitter and reaches the event loop uncaught. *)
Definition authenticate (self : StrategyInstance) (req : Request) : list Event :=
  match body req with
  | None => tick (fail (BadRequestError (JStr "Missing assertion")))
  | Some params =>
      if negb (truthy (assertion_of self params)) then
        tick (fail (BadRequestError (JStr "Missing assertion")))
      else
        let assertion := assertion_of self params in
        let query := verify_query self assertion in
        Outbound (verify_options query) query "utf8" ::
        match _https self (verify_options query) query with
        | RequestError e => [Uncaught e]
        | Response events => on_response self req "" events
        end
  end.

(** ** Vocabulary of the statements *)

(** The body the response handler has accumulated from the chunks:
    [data += chunk], starting from the empty string. *)
Definition received (chunks : list Chunk) : string :=
  fold_left (fun data chunk => data ++ chunk_text chunk) chunks "".

(** The callback completes the resolution with [done(err, user, info)]:
    it makes this one call, while it runs or later, and does not throw. *)
Definition completes_with (r : VerifyRun) (err user info : JsVal) : Prop :=
  (during r = [CallDone err user info] /\ afterwards r = [])
  \/ (during r = [] /\ afterwards r = [(err, user, info)]).

(** The outcome that one call of [done] stands for. *)
Definition resolution (err user info : JsVal) : Outcome :=
  if truthy err then Error err
  else if truthy user then Success user info
  else Fail info.

(** What a callback's synchronous steps amount to: the outcomes of its
    calls of [done] up to the first throw, and the exception thrown. *)
Fixpoint sync_outcomes (steps : list VStep) : list Outcome :=
  match steps with
  | [] => []
  | CallDone err user info :: rest => resolution err user info :: sync_outcomes rest
  | ThrowNow _ :: _ => []
  end.

Fixpoint thrown (steps : list VStep) : option JsVal :=
  match steps with
  | [] => None
  | CallDone _ _ _ :: rest => thrown rest
  | ThrowNow e :: _ => Some e
  end.

(** The outcomes of the calls of [done] it makes after it has returned. *)
Definition later_outcomes (calls : list (JsVal * JsVal * JsVal)) : list Outcome :=
  map (fun '(err, user, info) => resolution err user info) calls.

(** All the outcomes a run of the callback leads to: those of its
    synchronous calls of [done], the exception it throws, caught by the
    ['end'] handler and reported as an error, and those of its later calls. *)
Definition callback_outcomes (r : VerifyRun) : list Outcome :=
  sync_outcomes (during r)
  ++ match thrown (during r) with
     | Some e => [Error e]
     | None => []
     end
  ++ later_outcomes (afterwards r).

(** The arguments [verified] calls the callback with. *)
Definition verify_args (self : StrategyInstance) (req : Request) (email : JsVal) : list Arg :=
  if truthy (_passReqToCallback self) then [AReq req; AVal email; ADone]
  else [AVal email; ADone].



(** Whether a character occurs in a string. *)
Fixpoint occurs (c : ascii) (s : string) : bool :=
  match s with
  | EmptyString => false
  | String c' rest => Ascii.eqb c c' || occurs c rest
  end.


(** The callback's run makes the call [done(err, user, info)], while it
    runs or later. *)
Definition made_call (r : VerifyRun) (err user info : JsVal) : Prop :=
  In (CallDone err user info) (during r) \/ In (err, user, info) (afterwards r).

Definition is_success (o : Outcome) : bool :=
  match o with
  | Success _ _ => true
  | Fail _ | Error _ => false
  end.

Definition is_fail (o : Outcome) : bool :=
  match o with
  | Fail _ => true
  | Success _ _ | Error _ => false
  end.

(** A computation that makes no outbound call, neither while it runs nor
    in what it schedules. *)
Definition silent {A : Type} (m : Eff A) : Prop :=
  outbound (emitted m) = [] /\ outbound (deferred m) = [].

(** ** Properties *)

Local Open Scope list_scope.

(** A statement that depends on what an outcome callback does once it has
    been called is one about a host framework whose callbacks return; it
    takes this hypothesis.  The statements that do not take it hold for
    every host. *)
Hypothesis host_returns : forall o, host_throws o = None.

Lemma invoke_returns (o : Outcome) : invoke o = emit (Report o).
Proof. unfold invoke. rewrite host_returns. reflexivity. Qed.

Lemma success_returns (user info : JsVal) :
  success user info = emit (Report (Success user info)).
Proof. apply invoke_returns. Qed.

Lemma fail_returns (info : JsVal) : fail info = emit (Report (Fail info)).
Proof. apply invoke_returns. Qed.

Lemma error_returns (err : JsVal) : error err = emit (Report (Error err)).
Proof. apply invoke_returns. Qed.

Lemma tick_error (err : JsVal) : tick (error err) = [Report (Error err)].
Proof. rewrite error_returns. reflexivity. Qed.

Lemma tick_fail (info : JsVal) : tick (fail info) = [Report (Fail info)].
Proof. rewrite fail_returns. reflexivity. Qed.

Ltac returns :=
  rewrite ?success_returns, ?fail_returns, ?error_returns, ?invoke_returns,
    ?host_returns.

(** *** Laws of the effect operations *)

Lemma bind_lift_normal {A B : Type} (a : A) (k : A -> Eff B) :
  (x ← lift (Normal a); k x) = k a.
Proof.
  unfold mbind, Eff_bind, lift; simpl. destruct (k a); reflexivity.
Qed.

Lemma outcomes_reports (os : list Outcome) : outcomes (map Report os) = os.
Proof. induction os as [|o os IH]; simpl; [reflexivity|]. rewrite IH. reflexivity. Qed.

Lemma uncaught_reports (os : list Outcome) : uncaught (map Report os) = [].
Proof. induction os as [|o os IH]; simpl; [reflexivity|exact IH]. Qed.

Lemma verify_calls_reports (os : list Outcome) : verify_calls (map Report os) = [].
Proof. induction os as [|o os IH]; simpl; [reflexivity|exact IH]. Qed.

(** *** Reading properties *)

Lemma own_property_absent (props : list (string * JsVal)) (k : string) :
  (forall v, ~ In (k, v) props) -> own_property props k = JUndefined.
Proof.
  induction props as [|[k' v'] props IH]; simpl; intros H; [reflexivity|].
  destruct (String.eqb k' k) eqn:E.
  - apply String.eqb_eq in E. subst k'. exfalso. apply (H v'). left. reflexivity.
  - apply IH. intros v Hin. apply (H v). right. exact Hin.
Qed.

(** *** The completion function *)

(** [done] reports exactly one outcome, chosen by [err] and then [user]. *)
Lemma done_reports (err user info : JsVal) :
  done err user info = emit (Report (resolution err user info)).
Proof.
  unfold done, resolution. destruct (truthy err), (truthy user); returns; reflexivity.
Qed.

(** *** The response stream *)

Lemma on_response_chunks (self : StrategyInstance) (req : Request)
    (chunks : list Chunk) (data : string) (rest : list ResEvent) :
  on_response self req data (map Data chunks ++ rest)
  = on_response self req
      (fold_left (fun data chunk => (data ++ chunk_text chunk)%string) chunks data) rest.
Proof.
  revert data. induction chunks as [|c chunks IH]; intros data; simpl.
  - reflexivity.
  - apply IH.
Qed.

Lemma on_response_ended (self : StrategyInstance) (req : Request)
    (chunks : list Chunk) :
  on_response self req "" (map Data chunks ++ [End])
  = tick (on_end self req (received chunks)).
Proof.
  rewrite on_response_chunks. simpl. rewrite app_nil_r. reflexivity.
Qed.

(** *** The ['end'] handler *)

Lemma on_end_okay (self : StrategyInstance) (req : Request) (data : string)
    (result status : JsVal) :
  JSON_parse data = Normal result ->
  get result "status" = Normal status ->
  strict_eq_str status "okay" = true ->
  on_end self req data = try_catch (verified self req result) (fun e => error e).
Proof.
  intros Hparse Hstatus Hokay. unfold on_end.
  rewrite Hparse, bind_lift_normal, Hstatus, bind_lift_normal, Hokay.
  reflexivity.
Qed.

Lemma on_end_rejected (self : StrategyInstance) (req : Request) (data : string)
    (result status reason : JsVal) :
  JSON_parse data = Normal result ->
  get result "status" = Normal status ->
  strict_eq_str status "okay" = false ->
  get result "reason" = Normal reason ->
  on_end self req data = error (VerificationError reason).
Proof.
  intros Hparse Hstatus Hokay Hreason. unfold on_end.
  rewrite Hparse, bind_lift_normal, Hstatus, bind_lift_normal, Hokay.
  rewrite Hreason, bind_lift_normal. returns. reflexivity.
Qed.

Lemma get_after_get (v : JsVal) (k k' : string) (x : JsVal) :
  get v k = Normal x -> exists y, get v k' = Normal y.
Proof.
  destruct v; simpl; intros H; try discriminate; eauto.
Qed.

Lemma strict_eq_str_spec (v : JsVal) (s : string) :
  strict_eq_str v s = true <-> v = JStr s.
Proof.
  destruct v; simpl; split; intros H; try discriminate.
  - apply String.eqb_eq in H. congruence.
  - injection H as ->. apply String.eqb_refl.
Qed.

(** *** The verify callback *)

Lemma done_later_spec (calls : list (JsVal * JsVal * JsVal)) :
  done_later calls = mkEff [] (map Report (later_outcomes calls)) (Normal tt).
Proof.
  induction calls as [|[[err user] info] calls IH]; simpl; [reflexivity|].
  rewrite IH, done_reports. reflexivity.
Qed.

Lemma run_steps_spec (steps : list VStep) :
  run_steps steps
  = mkEff (map Report (sync_outcomes steps)) []
          (match thrown steps with Some e => Throw e | None => Normal tt end).
Proof.
  induction steps as [|[err user info|e] steps IH]; simpl; try reflexivity.
  rewrite IH, done_reports. destruct (thrown steps); reflexivity.
Qed.

Lemma call_verify_spec (self : StrategyInstance) (args : list Arg) :
  call_verify self args
  = mkEff (CallVerify args :: map Report (sync_outcomes (during (_verify self args))))
          (map Report (later_outcomes (afterwards (_verify self args))))
          (match thrown (during (_verify self args)) with
           | Some e => Throw e
           | None => Normal tt
           end).
Proof.
  unfold call_verify. rewrite done_later_spec, run_steps_spec.
  destruct (thrown (during (_verify self args)));
    unfold mbind, Eff_bind, emit; simpl; rewrite ?app_nil_r; reflexivity.
Qed.

Lemma verified_calls (self : StrategyInstance) (req : Request) (result email : JsVal) :
  get result "email" = Normal email ->
  verified self req result = call_verify self (verify_args self req email).
Proof.
  intros H. unfold verified, verify_args. rewrite H.
  destruct (truthy (_passReqToCallback self)); rewrite bind_lift_normal; reflexivity.
Qed.

(** *** What one ['end'] event leads to *)

Lemma on_end_okay_trace (self : StrategyInstance) (req : Request) (data : string)
    (result email : JsVal) :
  JSON_parse data = Normal result ->
  get result "status" = Normal (JStr "okay") ->
  get result "email" = Normal email ->
  tick (on_end self req data)
  = CallVerify (verify_args self req email)
    :: map Report (callback_outcomes (_verify self (verify_args self req email))).
Proof.
  intros Hparse Hstatus Hemail.
  rewrite (on_end_okay self req _ result (JStr "okay")) by (assumption || reflexivity).
  rewrite (verified_calls self req result email Hemail), call_verify_spec.
  unfold callback_outcomes.
  destruct (thrown (during (_verify self (verify_args self req email))));
    unfold tick, try_catch; simpl; returns; simpl; rewrite !map_app, ?app_nil_r; simpl;
    rewrite <- ?app_assoc; reflexivity.
Qed.

(** Either the handler reports one error (the body does not parse, the
    parsed value has no properties to read, or the verifier said no), or it
    calls the callback and the callback's run decides. *)
Lemma on_end_cases (self : StrategyInstance) (req : Request) (data : string) :
  (exists err, tick (on_end self req data) = [Report (Error err)])
  \/ (exists email,
        tick (on_end self req data)
        = CallVerify (verify_args self req email)
          :: map Report (callback_outcomes (_verify self (verify_args self req email)))).
Proof.
  destruct (JSON_parse data) as [result|e] eqn:Hparse.
  - destruct (get result "status") as [status|e] eqn:Hstatus.
    + destruct (strict_eq_str status "okay") eqn:Hokay.
      * apply strict_eq_str_spec in Hokay. subst status.
        destruct (get_after_get result "status" "email" _ Hstatus) as [email Hemail].
        right. exists email. apply (on_end_okay_trace self req data result email); assumption.
      * destruct (get_after_get result "status" "reason" _ Hstatus) as [reason Hreason].
        left. exists (VerificationError reason).
        rewrite (on_end_rejected self req data result status reason) by assumption.
        returns. reflexivity.
    + left. exists e. unfold on_end.
      rewrite Hparse, bind_lift_normal, Hstatus.
      unfold tick, try_catch; simpl; returns; reflexivity.
  - left. exists e. unfold on_end. rewrite Hparse.
    unfold tick, try_catch; simpl; returns; reflexivity.
Qed.


(** *** Attempts that stop before the network *)

Lemma authenticate_stops (self : StrategyInstance) (req : Request) :
  (body req = None
   \/ exists params, body req = Some params /\ truthy (assertion_of self params) = false) ->
  authenticate self req = [Report (Fail (BadRequestError (JStr "Missing assertion")))].
Proof.
  unfold authenticate. intros [-> | (params & -> & ->)]; simpl; returns; reflexivity.
Qed.

(** C2, amended.  A request whose body is absent, or has the configured
    assertion field neither among its own entries nor along its prototype
    chain, or holds an empty assertion, is failed with the bad-request
    error "Missing assertion", and that report is the whole trace: no
    outbound call is made. *)
Theorem missing_assertion_fails (self : StrategyInstance) (req : Request) :
  (body req = None
   \/ exists params : Body,
        body req = Some params
        /\ ((own params !! ToString (_assertionField self) = None
             /\ inherited params !! ToString (_assertionField self) = None)
            \/ own params !! ToString (_assertionField self) = Some (JStr ""))) ->
  authenticate self req = [Report (Fail (BadRequestError (JStr "Missing assertion")))]
  /\ outbound (authenticate self req) = [].
Proof.
  intros H.
  rewrite authenticate_stops; [split; reflexivity|].
  destruct H as [H | (params & Hbody & H)]; [left; exact H|].
  right. exists params. split; [exact Hbody|].
  unfold assertion_of, read. destruct H as [[-> ->] | ->]; reflexivity.
Qed.

(** *** Attempts that reach the verifier *)

Section Sent.

Variables (self : StrategyInstance) (req : Request) (params : Body).

Hypothesis Hbody : body req = Some params.
Hypothesis Hassertion : truthy (assertion_of self params) = true.

(** The one outbound call, then whatever the transport makes of it. *)
Lemma authenticate_sends :
  authenticate self req
  = Outbound (verify_options (verify_query self (assertion_of self params)))
             (verify_query self (assertion_of self params)) "utf8"
    :: match _https self (verify_options (verify_query self (assertion_of self params)))
                         (verify_query self (assertion_of self params)) with
       | RequestError e => [Uncaught e]
       | Response events => on_response self req "" events
       end.
Proof.
  unfold authenticate. rewrite Hbody, Hassertion. reflexivity.
Qed.

Section Ended.

(** The transport delivers the response body in chunks and then ['end']. *)
Variable chunks : list Chunk.

Hypothesis Htransport :
  _https self (verify_options (verify_query self (assertion_of self params)))
              (verify_query self (assertion_of self params))
  = Response (map Data chunks ++ [End]).

Lemma authenticate_ended :
  authenticate self req
  = Outbound (verify_options (verify_query self (assertion_of self params)))
             (verify_query self (assertion_of self params)) "utf8"
    :: tick (on_end self req (received chunks)).
Proof.
  rewrite authenticate_sends, Htransport, on_response_ended. reflexivity.
Qed.

(** The whole trace of an attempt whose response says ["okay"]: the call
    of the callback, the outcomes of its synchronous calls of [done], the
    exception it throws reported as an error, and the outcomes of its
    later calls of [done]. *)
Lemma okay_trace (result email : JsVal) :
  JSON_parse (received chunks) = Normal result ->
  get result "status" = Normal (JStr "okay") ->
  get result "email" = Normal email ->
  authenticate self req
  = Outbound (verify_options (verify_query self (assertion_of self params)))
             (verify_query self (assertion_of self params)) "utf8"
    :: CallVerify (verify_args self req email)
    :: map Report (callback_outcomes (_verify self (verify_args self req email))).
Proof.
  intros Hparse Hstatus Hemail. rewrite authenticate_ended. f_equal.
  apply (on_end_okay_trace self req _ result email); assumption.
Qed.

Lemma okay_outcomes (result email : JsVal) :
  JSON_parse (received chunks) = Normal result ->
  get result "status" = Normal (JStr "okay") ->
  get result "email" = Normal email ->
  outcomes (authenticate self req)
  = callback_outcomes (_verify self (verify_args self req email)).
Proof.
  intros Hparse Hstatus Hemail.
  rewrite (okay_trace result email) by assumption. simpl. apply outcomes_reports.
Qed.

(** C1.  When the response parses with status ["okay"] and the callback
    completes with [done(err, user, info)]: a truthy [err] gives the Error
    outcome with [err]; otherwise a falsy [user] gives the Fail outcome with
    [info]; otherwise the Success outcome with that [user] and [info]. *)
Theorem resolution_decides_outcome (result email err user info : JsVal) :
  JSON_parse (received chunks) = Normal result ->
  get result "status" = Normal (JStr "okay") ->
  get result "email" = Normal email ->
  completes_with (_verify self (verify_args self req email)) err user info ->
  (truthy err = true -> outcomes (authenticate self req) = [Error err])
  /\ (truthy err = false -> truthy user = false ->
      outcomes (authenticate self req) = [Fail info])
  /\ (truthy err = false -> truthy user = true ->
      outcomes (authenticate self req) = [Success user info]).
Proof.
  intros Hparse Hstatus Hemail Hverify.
  rewrite (okay_outcomes result email) by assumption.
  unfold callback_outcomes.
  destruct Hverify as [[-> ->] | [-> ->]];
    simpl; unfold resolution;
    (repeat split; [intros -> | intros -> -> ..]; reflexivity).
Qed.

(** C3.  When the response parses and its [status] is anything but the
    string ["okay"], the one outcome is Error, carrying a verification
    error whose message is the response's [reason]. *)
Theorem rejection_is_error (result status reason : JsVal) :
  JSON_parse (received chunks) = Normal result ->
  get result "status" = Normal status ->
  status <> JStr "okay" ->
  get result "reason" = Normal reason ->
  outcomes (authenticate self req) = [Error (VerificationError reason)]
  /\ get (VerificationError reason) "message" = Normal reason.
Proof.
  intros Hparse Hstatus Hne Hreason. split; [|reflexivity].
  rewrite authenticate_ended.
  rewrite (on_end_rejected self req _ result status reason); try assumption.
  - returns. reflexivity.
  - destruct (strict_eq_str status "okay") eqn:E; [|reflexivity].
    apply strict_eq_str_spec in E. contradiction.
Qed.

(** C9.  An exception the callback throws while it runs is caught by the
    ['end'] handler and reported as the Error outcome with that exception;
    nothing reaches the event loop uncaught. *)
Theorem callback_exception_is_reported (result email e : JsVal) :
  JSON_parse (received chunks) = Normal result ->
  get result "status" = Normal (JStr "okay") ->
  get result "email" = Normal email ->
  thrown (during (_verify self (verify_args self req email))) = Some e ->
  outcomes (authenticate self req)
  = sync_outcomes (during (_verify self (verify_args self req email)))
    ++ [Error e]
    ++ later_outcomes (afterwards (_verify self (verify_args self req email)))
  /\ uncaught (authenticate self req) = [].
Proof.
  intros Hparse Hstatus Hemail Hthrown. split.
  - rewrite (okay_outcomes result email) by assumption.
    unfold callback_outcomes. rewrite Hthrown. reflexivity.
  - rewrite (okay_trace result email) by assumption. simpl. apply uncaught_reports.
Qed.

(** C10.  A response with status ["okay"] and no [email] member is not an
    error: right after the outbound call the callback is called, with
    [undefined] in the place of the email, and the outcomes are those the
    callback leads to. *)
Theorem missing_email_reaches_callback (props : list (string * JsVal)) :
  JSON_parse (received chunks) = Normal (JObj props) ->
  own_property props "status" = JStr "okay" ->
  (forall v, ~ In ("email", v) props) ->
  authenticate self req
  = Outbound (verify_options (verify_query self (assertion_of self params)))
             (verify_query self (assertion_of self params)) "utf8"
    :: CallVerify (if truthy (_passReqToCallback self)
                   then [AReq req; AVal JUndefined; ADone]
                   else [AVal JUndefined; ADone])
    :: map Report
         (callback_outcomes
            (_verify self (if truthy (_passReqToCallback self)
                           then [AReq req; AVal JUndefined; ADone]
                           else [AVal JUndefined; ADone]))).
Proof.
  intros Hparse Hstatus Hnone.
  apply (okay_trace (JObj props) JUndefined Hparse).
  - simpl. rewrite Hstatus. reflexivity.
  - simpl. rewrite (own_property_absent props "email" Hnone). reflexivity.
Qed.

End Ended.

End Sent.

(** The response handlers make no outbound call of their own. *)
Lemma outbound_reports (os : list Outcome) : outbound (map Report os) = [].
Proof. induction os as [|o os IH]; simpl; [reflexivity|exact IH]. Qed.

Lemma outbound_app (t1 t2 : list Event) :
  outbound (t1 ++ t2) = outbound t1 ++ outbound t2.
Proof.
  induction t1 as [|ev t1 IH]; simpl; [reflexivity|].
  destruct ev; simpl; rewrite IH; reflexivity.
Qed.

Lemma silent_bind {A B : Type} (m : Eff A) (k : A -> Eff B) :
  silent m -> (forall a, silent (k a)) -> silent (x ← m; k x).
Proof.
  unfold silent, mbind, Eff_bind. intros [Hm Hm'] Hk.
  destruct (completion m) as [a|e]; simpl; [|split; assumption].
  destruct (Hk a) as [Ha Ha']. rewrite !outbound_app, Hm, Hm', Ha, Ha'.
  split; reflexivity.
Qed.

Lemma silent_try_catch {A : Type} (body : Eff A) (handler : JsVal -> Eff A) :
  silent body -> (forall e, silent (handler e)) -> silent (try_catch body handler).
Proof.
  unfold silent, try_catch. intros [Hb Hb'] Hh.
  destruct (completion body) as [a|e]; simpl; [split; assumption|].
  destruct (Hh e) as [He He']. rewrite !outbound_app, Hb, Hb', He, He'.
  split; reflexivity.
Qed.

Lemma silent_lift {A : Type} (c : Completion A) : silent (lift c).
Proof. split; reflexivity. Qed.

Lemma silent_invoke (o : Outcome) : silent (invoke o).
Proof. split; reflexivity. Qed.

Lemma silent_done (err user info : JsVal) : silent (done err user info).
Proof.
  unfold done. destruct (truthy err); [apply silent_invoke|].
  destruct (truthy user); apply silent_invoke.
Qed.

Lemma silent_run_steps (steps : list VStep) : silent (run_steps steps).
Proof.
  induction steps as [|[err user info|e] steps IH]; simpl.
  - split; reflexivity.
  - apply silent_bind; [apply silent_done|intros _; exact IH].
  - apply silent_bind; [split; reflexivity|intros _; exact IH].
Qed.

Lemma silent_done_later (calls : list (JsVal * JsVal * JsVal)) :
  silent (done_later calls).
Proof.
  induction calls as [|[[err user] info] calls IH]; simpl.
  - split; reflexivity.
  - apply silent_bind; [|intros _; exact IH].
    destruct (silent_done err user info) as [He Hd].
    unfold silent, postpone. simpl. rewrite !outbound_app, He, Hd. simpl.
    split; [reflexivity|]. destruct (completion (done err user info)); reflexivity.
Qed.

Lemma silent_call_verify (self : StrategyInstance) (args : list Arg) :
  silent (call_verify self args).
Proof.
  unfold call_verify. apply silent_bind; [split; reflexivity|intros _].
  apply silent_bind; [apply silent_done_later|intros _]. apply silent_run_steps.
Qed.

Lemma silent_on_end (self : StrategyInstance) (req : Request) (data : string) :
  silent (on_end self req data).
Proof.
  unfold on_end. apply silent_try_catch; [|intros e; apply silent_invoke].
  apply silent_bind; [apply silent_lift|intros result].
  apply silent_bind; [apply silent_lift|intros status].
  destruct (strict_eq_str status "okay").
  - unfold verified. destruct (truthy (_passReqToCallback self));
      (apply silent_bind; [apply silent_lift|intros email; apply silent_call_verify]).
  - apply silent_bind; [apply silent_lift|intros reason; apply silent_invoke].
Qed.

Lemma silent_tick (m : Eff unit) : silent m -> outbound (tick m) = [].
Proof.
  unfold silent, tick. intros [He Hd]. rewrite !outbound_app, He, Hd.
  destruct (completion m); reflexivity.
Qed.

(** This holds whatever the host framework's callbacks do. *)
Lemma on_response_no_outbound (self : StrategyInstance) (req : Request)
    (events : list ResEvent) (data : string) :
  outbound (on_response self req data events) = [].
Proof.
  revert data. induction events as [|[chunk| |err] events IH]; intros data;
    cbn [on_response].
  - reflexivity.
  - apply IH.
  - rewrite outbound_app, IH, app_nil_r. apply silent_tick, silent_on_end.
  - rewrite outbound_app, IH, app_nil_r. apply silent_tick, silent_invoke.
Qed.

(** An ['error'] on the response, after any amount of data, is reported. *)
Lemma response_error_is_reported (self : StrategyInstance) (req : Request)
    (params : Body) (chunks : list Chunk) (e : JsVal) :
  body req = Some params ->
  truthy (assertion_of self params) = true ->
  _https self (verify_options (verify_query self (assertion_of self params)))
              (verify_query self (assertion_of self params))
  = Response (map Data chunks ++ [ResError e]) ->
  outcomes (authenticate self req) = [Error e].
Proof.
  intros Hbody Hassertion Htransport.
  rewrite (authenticate_sends self req params Hbody Hassertion), Htransport.
  rewrite on_response_chunks. simpl. returns. reflexivity.
Qed.

(** *** One outcome per attempt *)


(** *** The outbound call *)

(** C6.  A strategy configured with audience [http://example.com] and the
    default assertion field, given a body with [assertion: "abc"], makes
    one outbound call, whose body is the form encoding of the assertion and
    then the audience. *)
Theorem outbound_body_is_form_encoded (options : Options) (verify : Verify)
    (self : StrategyInstance) (req : Request) (params : Body) :
  fields options !! "audience" = Some (JStr "http://example.com") ->
  fields options !! "assertionField" = None ->
  Strategy options (Some verify) = Normal self ->
  body req = Some params ->
  own params !! "assertion" = Some (JStr "abc") ->
  map (fun call => snd (fst call)) (outbound (authenticate self req))
  = ["assertion=abc&audience=http%3A%2F%2Fexample.com"].
Proof.
  intros Haudience Hfield Hnew Hbody Hassertion.
  unfold Strategy, opt in Hnew. rewrite Haudience, Hfield in Hnew. simpl in Hnew.
  injection Hnew as <-.
  assert (Hvalue : assertion_of
                     {| name := "browserid"; _verify := verify;
                        _passReqToCallback := default JUndefined
                                                (fields options !! "passReqToCallback");
                        _audience := JStr "http://example.com";
                        _assertionField := or_else JUndefined (JStr "assertion");
                        _https := default https (transport options) |} params
                   = JStr "abc").
  { unfold assertion_of, read. simpl. rewrite Hassertion. reflexivity. }
  rewrite (authenticate_sends _ req params Hbody) by (rewrite Hvalue; reflexivity).
  rewrite Hvalue. simpl.
  destruct (default https (transport options) _ _) as [e|events]; simpl;
    [reflexivity|].
  rewrite on_response_no_outbound. reflexivity.
Qed.

(** *** Construction *)

(** C8.  Construction throws when the [audience] option is absent or
    empty, and when no callback is supplied; with a non-empty audience and
    a callback it returns a strategy that holds both. *)
Theorem construction_requires_audience_and_callback
    (options : Options) (verify : option Verify) :
  ((fields options !! "audience" = None
    \/ fields options !! "audience" = Some (JStr "")) ->
   Strategy options verify
   = Throw (Error_ "BrowserID authentication requires an audience option"))
  /\ (verify = None -> exists e, Strategy options verify = Throw e)
  /\ (forall (audience : string) (callback : Verify),
        fields options !! "audience" = Some (JStr audience) ->
        audience <> "" ->
        verify = Some callback ->
        exists self,
          Strategy options verify = Normal self
          /\ _audience self = JStr audience
          /\ _verify self = callback).
Proof.
  unfold Strategy, opt. repeat split.
  - intros [-> | ->]; reflexivity.
  - intros ->. destruct (negb _); eauto.
  - intros audience callback -> Hne ->. simpl.
    destruct (String.eqb audience "") eqn:E.
    + apply String.eqb_eq in E. contradiction.
    + simpl. eexists. repeat split.
Qed.

(** C7, amended.  The option the constructor reads is [passReqToCallback].
    When it is [true], the callback is called with the request, then the
    email, then the completion function; when it is [false] or absent, with
    the email and the completion function only. *)
Theorem passReqToCallback_decides_arguments (options : Options) (verify : Verify)
    (self : StrategyInstance) (req : Request) (params : Body)
    (chunks : list Chunk) (result email : JsVal) :
  Strategy options (Some verify) = Normal self ->
  body req = Some params ->
  truthy (assertion_of self params) = true ->
  _https self (verify_options (verify_query self (assertion_of self params)))
              (verify_query self (assertion_of self params))
  = Response (map Data chunks ++ [End]) ->
  JSON_parse (received chunks) = Normal result ->
  get result "status" = Normal (JStr "okay") ->
  get result "email" = Normal email ->
  (fields options !! "passReqToCallback" = Some (JBool true) ->
   verify_calls (authenticate self req) = [[AReq req; AVal email; ADone]])
  /\ (fields options !! "passReqToCallback" = Some (JBool false)
      \/ fields options !! "passReqToCallback" = None ->
      verify_calls (authenticate self req) = [[AVal email; ADone]]).
Proof.
  intros Hnew Hbody Hassertion Htransport Hparse Hstatus Hemail.
  rewrite (okay_trace self req params Hbody Hassertion chunks Htransport result email)
    by assumption.
  simpl. rewrite verify_calls_reports.
  assert (Hflag : _passReqToCallback self = opt options "passReqToCallback").
  { unfold Strategy in Hnew. destruct (negb _); [discriminate|].
    injection Hnew as <-. reflexivity. }
  unfold verify_args. rewrite Hflag. unfold opt.
  split; [intros -> | intros [-> | ->]]; reflexivity.
Qed.

(** ** Further properties *)

(** *** The form encoding of the outbound body *)

Lemma hex_digit_unreserved (k : nat) : (k < 16)%nat -> unreserved (hex_digit k) = true.
Proof.
  intros H. do 16 (destruct k as [|k]; [reflexivity|]). lia.
Qed.

Lemma hex_digit_injective (j k : nat) :
  (j < 16)%nat -> (k < 16)%nat -> hex_digit j = hex_digit k -> j = k.
Proof.
  intros Hj Hk.
  do 16 (destruct j as [|j];
         [do 16 (destruct k as [|k]; [first [reflexivity | discriminate]|]); lia|]).
  lia.
Qed.

Lemma nat_of_ascii_bound (c : ascii) : (nat_of_ascii c < 256)%nat.
Proof. destruct c as [[] [] [] [] [] [] [] []]; vm_compute; lia. Qed.

Lemma occurs_append (c : ascii) (s t : string) :
  occurs c (s ++ t)%string = occurs c s || occurs c t.
Proof.
  induction s as [|c' s IH]; simpl; [reflexivity|].
  rewrite IH. apply orb_assoc.
Qed.

(** What [escape] puts out: unreserved characters and [%]. *)
Lemma escape_alphabet (s : string) (c : ascii) :
  occurs c (escape s) = true -> unreserved c = true \/ c = "%"%char.
Proof.
  induction s as [|c' s IH]; simpl; [discriminate|].
  assert (Hq : (nat_of_ascii c' / 16 < 16)%nat).
  { apply Nat.Div0.div_lt_upper_bound. pose proof (nat_of_ascii_bound c'). lia. }
  assert (Hr : (nat_of_ascii c' mod 16 < 16)%nat) by (apply Nat.mod_upper_bound; lia).
  destruct (unreserved c') eqn:Hc'; simpl; intros H;
    repeat (apply orb_prop in H as [H | H]);
    try (apply Ascii.eqb_eq in H; subst c);
    auto using hex_digit_unreserved.
Qed.

Lemma escape_cons (c : ascii) (s : string) :
  escape (String c s)
  = if unreserved c then String c (escape s)
    else String "%" (String (hex_digit (nat_of_ascii c / 16))
                       (String (hex_digit (nat_of_ascii c mod 16)) (escape s))).
Proof. reflexivity. Qed.

Lemma escape_injective (s1 s2 : string) : escape s1 = escape s2 -> s1 = s2.
Proof.
  revert s2. induction s1 as [|c1 s1 IH]; intros [|c2 s2]; rewrite ?escape_cons.
  - reflexivity.
  - destruct (unreserved c2); discriminate.
  - destruct (unreserved c1); discriminate.
  - destruct (unreserved c1) eqn:H1, (unreserved c2) eqn:H2; intros H.
    + injection H as -> H. f_equal. apply IH, H.
    + injection H as -> _. discriminate H1.
    + injection H as <- _. discriminate H2.
    + injection H as Hq Hr H.
      pose proof (nat_of_ascii_bound c1) as B1.
      pose proof (nat_of_ascii_bound c2) as B2.
      change (hex_digit (nat_of_ascii c1 / 16) = hex_digit (nat_of_ascii c2 / 16)) in Hq.
      change (hex_digit (nat_of_ascii c1 mod 16) = hex_digit (nat_of_ascii c2 mod 16)) in Hr.
      apply hex_digit_injective in Hq;
        [|apply Nat.Div0.div_lt_upper_bound; lia..].
      apply hex_digit_injective in Hr; [|apply Nat.mod_upper_bound; lia..].
      assert (Hn : nat_of_ascii c1 = nat_of_ascii c2).
      { rewrite (Nat.div_mod_eq (nat_of_ascii c1) 16),
                (Nat.div_mod_eq (nat_of_ascii c2) 16), Hq, Hr. reflexivity. }
      f_equal; [|apply IH, H].
      rewrite <- (ascii_nat_embedding c1), <- (ascii_nat_embedding c2), Hn.
      reflexivity.
Qed.


(** Two strings without [&], each followed by [&] and more, that agree
    as wholes agree part by part. *)
Lemma split_at_ampersand (s1 s2 r1 r2 : string) :
  occurs "&" s1 = false -> occurs "&" s2 = false ->
  (s1 ++ String "&" r1)%string = (s2 ++ String "&" r2)%string ->
  s1 = s2 /\ r1 = r2.
Proof.
  revert s2. induction s1 as [|c1 s1 IH]; intros [|c2 s2]; simpl; intros H1 H2 H.
  - injection H as ->. split; reflexivity.
  - injection H as E _. subst c2. discriminate H2.
  - injection H as E _. subst c1. discriminate H1.
  - injection H as -> H.
    apply orb_false_elim in H1 as [_ H1]. apply orb_false_elim in H2 as [_ H2].
    destruct (IH s2 H1 H2 H) as [-> ->]. split; reflexivity.
Qed.

Lemma escape_no_separator (s : string) :
  occurs "&" (escape s) = false /\ occurs "=" (escape s) = false.
Proof.
  split.
  - destruct (occurs "&" (escape s)) eqn:E; [|reflexivity].
    apply escape_alphabet in E as [E | E]; discriminate.
  - destruct (occurs "=" (escape s)) eqn:E; [|reflexivity].
    apply escape_alphabet in E as [E | E]; discriminate.
Qed.

(** The body sent for a string assertion and a string audience has the two
    parameters and nothing else: the escaped values hold neither [&] nor
    [=], so no value can add or rename a parameter. *)
Theorem form_body_has_two_parameters (self : StrategyInstance) (assertion audience : string) :
  _audience self = JStr audience ->
  verify_query self (JStr assertion)
  = ("assertion=" ++ escape assertion ++ "&audience=" ++ escape audience)%string
  /\ occurs "&" (escape assertion) = false
  /\ occurs "=" (escape assertion) = false
  /\ occurs "&" (escape audience) = false
  /\ occurs "=" (escape audience) = false.
Proof.
  intros Haudience. unfold verify_query. rewrite Haudience.
  destruct (escape_no_separator assertion) as [? ?].
  destruct (escape_no_separator audience) as [? ?].
  repeat split; assumption.
Qed.

(** Different assertions are sent as different bodies, whatever the
    audience. *)
Theorem distinct_assertions_distinct_bodies (self : StrategyInstance) (a1 a2 : string) :
  a1 <> a2 -> verify_query self (JStr a1) <> verify_query self (JStr a2).
Proof.
  intros Hne H. apply Hne. unfold verify_query, querystring_stringify in H.
  simpl in H. injection H as H.
  apply split_at_ampersand in H as [H _]; try apply escape_no_separator.
  apply escape_injective, H.
Qed.


(** *** The outbound call, whatever the transport does *)

Lemma authenticate_outbound (self : StrategyInstance) (req : Request) :
  outbound (authenticate self req)
  = match body req with
    | Some params =>
        if truthy (assertion_of self params)
        then [(verify_options (verify_query self (assertion_of self params)),
               verify_query self (assertion_of self params), "utf8")]
        else []
    | None => []
    end.
Proof.
  unfold authenticate.
  destruct (body req) as [params|]; [|apply silent_tick, silent_invoke].
  destruct (truthy (assertion_of self params));
    [|apply silent_tick, silent_invoke]. simpl.
  destruct (_https self _ _) as [e|events]; [reflexivity|].
  rewrite on_response_no_outbound. reflexivity.
Qed.

(** Whatever the transport, the callback and the host framework's
    callbacks do, an attempt makes at most one outbound call, and none when
    the body is absent or the assertion read from it is falsy; every call
    it makes is a POST of [/verify] at the verifier's host, and its
    [Content-Length] header is the length of the body sent. *)
Theorem at_most_one_outbound_call (self : StrategyInstance) (req : Request) :
  List.length (outbound (authenticate self req)) <= 1
  /\ ((body req = None
       \/ exists params, body req = Some params
                         /\ truthy (assertion_of self params) = false) ->
      outbound (authenticate self req) = [])
  /\ (forall options payload encoding,
        In (options, payload, encoding) (outbound (authenticate self req)) ->
        host options = "verifier.login.persona.org"
        /\ path options = "/verify"
        /\ method options = "POST"
        /\ own_property (headers options) "Content-Length"
           = JNum (Z.of_nat (String.length payload))
        /\ encoding = "utf8").
Proof.
  rewrite authenticate_outbound.
  destruct (body req) as [params|].
  - destruct (truthy (assertion_of self params)) eqn:E.
    + split; [simpl; lia|]. split.
      * intros [H | (params' & H & H')]; [discriminate|].
        injection H as <-. congruence.
      * intros options payload encoding [H | []]. injection H as <- <- <-.
        repeat split.
    + split; [simpl; lia|]. split; [reflexivity|].
      intros options payload encoding [].
  - split; [simpl; lia|]. split; [reflexivity|].
    intros options payload encoding [].
Qed.

(** The guard tests the assertion for truthiness, not for being a string:
    an object in the assertion field passes it, and the call is made with
    an empty assertion. *)
Theorem object_assertion_is_sent_empty (self : StrategyInstance) (req : Request)
    (params : Body) (props : list (string * JsVal)) :
  body req = Some params ->
  own params !! ToString (_assertionField self) = Some (JObj props) ->
  outbound (authenticate self req)
  = [(verify_options (verify_query self (JStr "")), verify_query self (JStr ""), "utf8")].
Proof.
  intros Hbody Hfield. rewrite authenticate_outbound, Hbody.
  unfold assertion_of, read. rewrite Hfield. reflexivity.
Qed.

(** Until the response ends, nothing is reported: data alone, however
    much of it, leads to no outcome and no call of the callback. *)
Theorem no_outcome_before_end (self : StrategyInstance) (req : Request)
    (params : Body) (chunks : list Chunk) :
  body req = Some params ->
  truthy (assertion_of self params) = true ->
  _https self (verify_options (verify_query self (assertion_of self params)))
              (verify_query self (assertion_of self params))
  = Response (map Data chunks) ->
  authenticate self req
  = [Outbound (verify_options (verify_query self (assertion_of self params)))
              (verify_query self (assertion_of self params)) "utf8"].
Proof.
  intros Hbody Hassertion Htransport.
  rewrite (authenticate_sends self req params Hbody Hassertion), Htransport.
  rewrite <- (app_nil_r (map Data chunks)), on_response_chunks. reflexivity.
Qed.

(** *** The accumulated body *)






(** *** What the ['end'] handler looks at *)

(** Of a response with status ["okay"] only the email is used: two such
    responses with the same email lead to the same trace, whatever else
    they say, for instance about the audience or the expiry. *)
Theorem only_status_and_email_are_read (self : StrategyInstance) (req : Request)
    (data1 data2 : string) (result1 result2 email : JsVal) :
  JSON_parse data1 = Normal result1 ->
  JSON_parse data2 = Normal result2 ->
  get result1 "status" = Normal (JStr "okay") ->
  get result2 "status" = Normal (JStr "okay") ->
  get result1 "email" = Normal email ->
  get result2 "email" = Normal email ->
  tick (on_end self req data1) = tick (on_end self req data2).
Proof.
  intros Hp1 Hp2 Hs1 Hs2 He1 He2. unfold on_end.
  rewrite Hp1, Hp2, !bind_lift_normal, Hs1, Hs2, !bind_lift_normal. simpl.
  unfold verified. rewrite He1, He2. reflexivity.
Qed.

(** *** Responses that end, read to the end *)

Section Answered.

Variables (self : StrategyInstance) (req : Request) (params : Body).
Variable chunks : list Chunk.

Hypothesis Hbody : body req = Some params.
Hypothesis Hassertion : truthy (assertion_of self params) = true.
Hypothesis Htransport :
  _https self (verify_options (verify_query self (assertion_of self params)))
              (verify_query self (assertion_of self params))
  = Response (map Data chunks ++ [End]).

(** A body that [JSON.parse] rejects gives the Error outcome with the
    parser's exception, and the callback is not called. *)
Theorem unparsable_response_is_error (e : JsVal) :
  JSON_parse (received chunks) = Throw e ->
  authenticate self req
  = [Outbound (verify_options (verify_query self (assertion_of self params)))
              (verify_query self (assertion_of self params)) "utf8";
     Report (Error e)].
Proof.
  intros Hparse.
  rewrite (authenticate_ended self req params Hbody Hassertion chunks Htransport).
  unfold on_end. rewrite Hparse. unfold tick, try_catch; simpl; returns. reflexivity.
Qed.

(** A body that parses to a value without properties, [null], makes the
    read of [status] throw; the exception is caught and reported as the
    Error outcome, and the callback is not called. *)
Theorem null_response_is_error (result e : JsVal) :
  JSON_parse (received chunks) = Normal result ->
  get result "status" = Throw e ->
  authenticate self req
  = [Outbound (verify_options (verify_query self (assertion_of self params)))
              (verify_query self (assertion_of self params)) "utf8";
     Report (Error e)].
Proof.
  intros Hparse Hstatus.
  rewrite (authenticate_ended self req params Hbody Hassertion chunks Htransport).
  unfold on_end. rewrite Hparse, bind_lift_normal, Hstatus.
  unfold tick, try_catch; simpl; returns. reflexivity.
Qed.

(** The callback is called exactly when the body parses and its status is
    the string ["okay"], and then it is called once. *)
Theorem callback_called_iff_okay :
  (verify_calls (authenticate self req) <> []
   <-> exists result, JSON_parse (received chunks) = Normal result
                      /\ get result "status" = Normal (JStr "okay"))
  /\ List.length (verify_calls (authenticate self req)) <= 1.
Proof.
  rewrite (authenticate_ended self req params Hbody Hassertion chunks Htransport).
  simpl.
  destruct (JSON_parse (received chunks)) as [result|e] eqn:Hparse.
  - destruct (get result "status") as [status|e] eqn:Hstatus.
    + destruct (strict_eq_str status "okay") eqn:Hokay.
      * apply strict_eq_str_spec in Hokay. subst status.
        destruct (get_after_get result "status" "email" _ Hstatus) as [email Hemail].
        rewrite (on_end_okay_trace self req _ result email) by assumption.
        simpl. rewrite verify_calls_reports. split; [|simpl; lia].
        split; [|discriminate]. intros _. exists result. split; [reflexivity|exact Hstatus].
      * destruct (get_after_get result "status" "reason" _ Hstatus) as [reason Hreason].
        rewrite (on_end_rejected self req _ result status reason) by assumption.
        returns. simpl. split; [|lia]. split; [intros H; contradiction|].
        intros (result' & Hr & Hs). injection Hr as <-. rewrite Hstatus in Hs.
        injection Hs as ->. discriminate.
    + unfold on_end. rewrite Hparse, bind_lift_normal, Hstatus.
      unfold tick, try_catch; simpl; returns; simpl.
      split; [|lia]. split; [intros H; contradiction|].
      intros (result' & Hr & Hs). injection Hr as <-. congruence.
  - unfold on_end. rewrite Hparse.
    unfold tick, try_catch; simpl; returns; simpl.
    split; [|lia]. split; [intros H; contradiction|].
    intros (result' & Hr & _). discriminate.
Qed.

Lemma sync_outcomes_length (steps : list VStep) :
  thrown steps = None -> List.length (sync_outcomes steps) = List.length steps.
Proof.
  induction steps as [|[err user info|e] steps IH]; simpl; intros H.
  - reflexivity.
  - rewrite IH by exact H. reflexivity.
  - discriminate.
Qed.

(** Nothing remembers that an outcome was reported: when the callback does
    not throw, every one of its calls of [done], made while it runs or
    later, reports an outcome of its own. *)
Theorem every_done_call_reports (result email : JsVal) :
  JSON_parse (received chunks) = Normal result ->
  get result "status" = Normal (JStr "okay") ->
  get result "email" = Normal email ->
  thrown (during (_verify self (verify_args self req email))) = None ->
  outcomes (authenticate self req)
  = sync_outcomes (during (_verify self (verify_args self req email)))
    ++ later_outcomes (afterwards (_verify self (verify_args self req email)))
  /\ List.length (outcomes (authenticate self req))
     = List.length (during (_verify self (verify_args self req email)))
       + List.length (afterwards (_verify self (verify_args self req email))).
Proof.
  intros Hparse Hstatus Hemail Hthrown.
  rewrite (okay_outcomes self req params Hbody Hassertion chunks Htransport result email)
    by assumption.
  unfold callback_outcomes. rewrite Hthrown. simpl. split; [reflexivity|].
  rewrite length_app, (sync_outcomes_length _ Hthrown).
  unfold later_outcomes. rewrite length_map. reflexivity.
Qed.

End Answered.

(** *** Where outcomes come from *)

Lemma outcomes_app (t1 t2 : list Event) :
  outcomes (t1 ++ t2) = outcomes t1 ++ outcomes t2.
Proof.
  induction t1 as [|ev t1 IH]; simpl; [reflexivity|].
  destruct ev; simpl; rewrite IH; reflexivity.
Qed.

Lemma verify_calls_app (t1 t2 : list Event) :
  verify_calls (t1 ++ t2) = verify_calls t1 ++ verify_calls t2.
Proof.
  induction t1 as [|ev t1 IH]; simpl; [reflexivity|].
  destruct ev; simpl; rewrite IH; reflexivity.
Qed.

Lemma resolution_success (err user info user' info' : JsVal) :
  resolution err user info = Success user' info' ->
  user' = user /\ info' = info /\ truthy err = false /\ truthy user = true.
Proof.
  unfold resolution. destruct (truthy err); [discriminate|].
  destruct (truthy user); [|discriminate].
  intros H. injection H as <- <-. repeat split.
Qed.

Lemma resolution_fail (err user info info' : JsVal) :
  resolution err user info = Fail info' ->
  info' = info /\ truthy err = false /\ truthy user = false.
Proof.
  unfold resolution. destruct (truthy err); [discriminate|].
  destruct (truthy user); [discriminate|].
  intros H. injection H as <-. repeat split.
Qed.

(** An outcome of a callback's run is the caught exception, or stands for
    a call of [done] that the run made. *)
Lemma callback_outcome_origin (r : VerifyRun) (o : Outcome) :
  In o (callback_outcomes r) ->
  (exists e, o = Error e)
  \/ (exists err user info, made_call r err user info /\ o = resolution err user info).
Proof.
  unfold callback_outcomes, made_call. rewrite !in_app_iff. intros [H | [H | H]].
  - right. induction (during r) as [|[err user info|e] steps IH]; simpl in H.
    + contradiction.
    + destruct H as [<- | H].
      * exists err, user, info. split; [left; left; reflexivity|reflexivity].
      * destruct (IH H) as (err' & user' & info' & [Hin | Hin] & ->).
        -- exists err', user', info'. split; [left; right; exact Hin|reflexivity].
        -- exists err', user', info'. split; [right; exact Hin|reflexivity].
    + contradiction.
  - destruct (thrown (during r)); [|contradiction].
    destruct H as [<- | []]. left. eauto.
  - unfold later_outcomes in H. apply in_map_iff in H as ([[err user] info] & <- & Hin).
    right. exists err, user, info. split; [right; exact Hin|reflexivity].
Qed.

Lemma report_in_reports (before after : list Event) (o : Outcome) (os : list Outcome) :
  before ++ Report o :: after = map Report os -> In o os.
Proof.
  intros H.
  assert (Hin : In (Report o) (map Report os)).
  { rewrite <- H. apply in_or_app. right. left. reflexivity. }
  apply in_map_iff in Hin as (o' & Ho & Hin). injection Ho as ->. exact Hin.
Qed.

(** Whatever the response emits, a report in the trace is an error, or it
    is an outcome of a run of the callback that was started before it. *)
Lemma on_response_report (self : StrategyInstance) (req : Request)
    (events : list ResEvent) (data : string) (before after : list Event) (o : Outcome) :
  on_response self req data events = before ++ Report o :: after ->
  (exists e, o = Error e)
  \/ (exists args, In (CallVerify args) before
                   /\ In o (callback_outcomes (_verify self args))).
Proof.
  revert data before. induction events as [|[chunk| |err] events IH];
    intros data before; cbn [on_response]; intros Heq.
  - destruct before; discriminate.
  - apply (IH _ _ Heq).
  - symmetry in Heq. apply app_eq_app in Heq as (l & [[-> Hrest] | [Htick Hrest]]).
    + destruct (IH _ _ Hrest) as [He | (args & Hin & Ho)]; [left; exact He|].
      right. exists args. split; [apply in_or_app; right; exact Hin|exact Ho].
    + destruct l as [|ev l].
      * rewrite app_nil_r in Htick. simpl in Hrest. symmetry in Hrest.
        destruct (IH _ [] Hrest) as [He | (args & [] & _)]. left. exact He.
      * simpl in Hrest. injection Hrest as <- _.
        destruct (on_end_cases self req data) as [[err Ht] | [email Ht]];
          rewrite Ht in Htick.
        -- destruct before as [|b [|b' before]]; try discriminate.
           injection Htick as <-. left. eauto.
        -- destruct before as [|b before]; [discriminate|].
           injection Htick as <- Htick. symmetry in Htick.
           apply report_in_reports in Htick.
           right. exists (verify_args self req email).
           split; [left; reflexivity|exact Htick].
  - rewrite tick_error in Heq. simpl in Heq.
    destruct before as [|b before].
    + injection Heq as <- _. left. eauto.
    + injection Heq as <- Heq.
      destruct (IH _ _ Heq) as [He | (args & Hin & Ho)]; [left; exact He|].
      right. exists args. split; [right; exact Hin|exact Ho].
Qed.

(** The same, for the whole attempt. *)
Lemma authenticate_report (self : StrategyInstance) (req : Request)
    (before after : list Event) (o : Outcome) :
  authenticate self req = before ++ Report o :: after ->
  (o = Fail (BadRequestError (JStr "Missing assertion"))
   /\ before = [] /\ after = []
   /\ (body req = None
       \/ exists params, body req = Some params
                         /\ truthy (assertion_of self params) = false))
  \/ ((exists options payload encoding, In (Outbound options payload encoding) before)
      /\ ((exists e, o = Error e)
          \/ (exists args, In (CallVerify args) before
                           /\ In o (callback_outcomes (_verify self args))))).
Proof.
  unfold authenticate. destruct (body req) as [params|] eqn:Hbody.
  - destruct (truthy (assertion_of self params)) eqn:Hassertion.
    + intros Heq. right. destruct before as [|b before]; [discriminate|].
      simpl in Heq. injection Heq as <- Heq.
      split; [do 3 eexists; left; reflexivity|].
      destruct (_https self _ _) as [e|events].
      * destruct before as [|b [|b' before]]; discriminate.
      * destruct (on_response_report _ _ _ _ _ _ _ Heq) as [He | (args & Hin & Ho)];
          [left; exact He|].
        right. exists args. split; [right; exact Hin|exact Ho].
    + rewrite tick_fail. intros Heq. left.
      destruct before as [|b [|b' before]]; try discriminate.
      injection Heq as <- <-. repeat split. right. eauto.
  - rewrite tick_fail. intros Heq. left.
    destruct before as [|b [|b' before]]; try discriminate.
    injection Heq as <- <-. repeat split. left. reflexivity.
Qed.

(** Of the outcomes that are no errors the strategy adds none and drops
    none: they are those of the callback's runs, one for one and in order. *)
Lemma on_response_exact (self : StrategyInstance) (req : Request)
    (p : Outcome -> bool) (events : list ResEvent) (data : string) :
  (forall e, p (Error e) = false) ->
  List.filter p (outcomes (on_response self req data events))
  = List.filter p
      (flat_map (fun args => callback_outcomes (_verify self args))
                (verify_calls (on_response self req data events))).
Proof.
  intros Hp. revert data.
  induction events as [|[chunk| |err] events IH]; intros data; cbn [on_response].
  - reflexivity.
  - apply IH.
  - rewrite outcomes_app, verify_calls_app, flat_map_app, !List.filter_app, IH.
    f_equal.
    destruct (on_end_cases self req data) as [[err ->] | [email ->]]; simpl.
    + rewrite Hp. reflexivity.
    + rewrite outcomes_reports, verify_calls_reports. simpl.
      rewrite app_nil_r. reflexivity.
  - rewrite tick_error. simpl. rewrite Hp. apply IH.
Qed.

Lemma authenticate_exact (self : StrategyInstance) (req : Request)
    (p : Outcome -> bool) :
  (forall e, p (Error e) = false) ->
  outbound (authenticate self req) <> [] ->
  List.filter p (outcomes (authenticate self req))
  = List.filter p
      (flat_map (fun args => callback_outcomes (_verify self args))
                (verify_calls (authenticate self req))).
Proof.
  intros Hp Hsent.
  assert (Hnot : ~ (body req = None
                    \/ exists params, body req = Some params
                                      /\ truthy (assertion_of self params) = false)).
  { intros H. apply Hsent. rewrite authenticate_outbound.
    destruct H as [-> | (params & -> & ->)]; reflexivity. }
  unfold authenticate. destruct (body req) as [params|]; [|exfalso; auto].
  destruct (truthy (assertion_of self params)) eqn:E; [|exfalso; eauto].
  simpl. destruct (_https self _ _) as [e|events]; [reflexivity|].
  apply on_response_exact, Hp.
Qed.

Lemma no_outbound_means_stopped (self : StrategyInstance) (req : Request) :
  outbound (authenticate self req) = [] ->
  body req = None
  \/ exists params, body req = Some params /\ truthy (assertion_of self params) = false.
Proof.
  rewrite authenticate_outbound. destruct (body req) as [params|]; [|left; reflexivity].
  destruct (truthy (assertion_of self params)) eqn:E; [discriminate|].
  intros _. right. exists params. split; [reflexivity|exact E].
Qed.

(** Success is never reported on the strategy's own account.  Whatever the
    transport and the callback do, a success in the trace carries a truthy
    user and stands for a call [done(err, user, info)] with a falsy [err],
    made by a run of the callback that was started earlier in the trace,
    after the outbound call; and the successes reported are those of the
    callback's runs, one for one and in order. *)
Theorem success_only_through_callback (self : StrategyInstance) (req : Request) :
  (forall (before after : list Event) (user info : JsVal),
     authenticate self req = before ++ Report (Success user info) :: after ->
     truthy user = true
     /\ (exists options payload encoding, In (Outbound options payload encoding) before)
     /\ (exists args err,
           In (CallVerify args) before
           /\ made_call (_verify self args) err user info
           /\ truthy err = false))
  /\ List.filter is_success (outcomes (authenticate self req))
     = List.filter is_success
         (flat_map (fun args => callback_outcomes (_verify self args))
                   (verify_calls (authenticate self req))).
Proof.
  split.
  - intros before after user info Heq.
    destruct (authenticate_report self req _ _ _ Heq)
      as [(Ho & _) | (Hout & [[e He] | (args & Hin & Ho)])]; try discriminate.
    apply callback_outcome_origin in Ho
      as [[e He] | (err & user' & info' & Hcall & Ho)]; [discriminate|].
    symmetry in Ho. apply resolution_success in Ho as (-> & -> & Herr & Huser).
    split; [exact Huser|]. split; [exact Hout|].
    exists args, err. repeat split; assumption.
  - destruct (outbound (authenticate self req)) eqn:Hout.
    + apply no_outbound_means_stopped in Hout.
      rewrite (authenticate_stops self req Hout). reflexivity.
    + apply authenticate_exact; [reflexivity|]. rewrite Hout. discriminate.
Qed.

(** A failure is the one for a missing assertion, which is then the whole
    trace, or it stands for a call [done(err, user, info)] with falsy [err]
    and [user], made by a run of the callback that was started earlier in
    the trace: nothing the verifier or the transport says leads to the
    Fail outcome.  Once the outbound call is made, the failures reported
    are those of the callback's runs, one for one and in order. *)
Theorem fail_is_bad_request_or_from_callback (self : StrategyInstance) (req : Request) :
  (forall (before after : list Event) (info : JsVal),
     authenticate self req = before ++ Report (Fail info) :: after ->
     (info = BadRequestError (JStr "Missing assertion")
      /\ before = [] /\ after = []
      /\ outbound (authenticate self req) = [])
     \/ (exists args err user,
           In (CallVerify args) before
           /\ made_call (_verify self args) err user info
           /\ truthy err = false
           /\ truthy user = false))
  /\ (outbound (authenticate self req) <> [] ->
      List.filter is_fail (outcomes (authenticate self req))
      = List.filter is_fail
          (flat_map (fun args => callback_outcomes (_verify self args))
                    (verify_calls (authenticate self req)))).
Proof.
  split.
  - intros before after info Heq.
    destruct (authenticate_report self req _ _ _ Heq)
      as [(Ho & -> & -> & Hmissing) | (_ & [[e He] | (args & Hin & Ho)])];
      try discriminate.
    + left. injection Ho as ->. repeat split.
      rewrite authenticate_outbound.
      destruct Hmissing as [-> | (params & -> & ->)]; reflexivity.
    + apply callback_outcome_origin in Ho
        as [[e He] | (err & user & info' & Hcall & Ho)]; [discriminate|].
      symmetry in Ho. apply resolution_fail in Ho as (-> & Herr & Huser).
      right. exists args, err, user. repeat split; assumption.
  - apply authenticate_exact. reflexivity.
Qed.

(** An ['error'] on the request object, which has no listener, leads to
    no outcome at all, and the callback is not called. *)
Theorem request_error_reports_nothing (self : StrategyInstance) (req : Request)
    (params : Body) (e : JsVal) :
  body req = Some params ->
  truthy (assertion_of self params) = true ->
  _https self (verify_options (verify_query self (assertion_of self params)))
              (verify_query self (assertion_of self params))
  = RequestError e ->
  outcomes (authenticate self req) = []
  /\ verify_calls (authenticate self req) = [].
Proof.
  intros Hbody Hassertion Htransport.
  rewrite (authenticate_sends self req params Hbody Hassertion), Htransport.
  split; reflexivity.
Qed.

(** *** What the constructor's options do *)

(** The assertion is read, own entry or inherited property, from the field
    named by the [assertionField] option, and from [assertion] when the
    option is absent or empty. *)
Theorem assertion_field_defaults (options : Options) (verify : Verify)
    (self : StrategyInstance) (params : Body) :
  Strategy options (Some verify) = Normal self ->
  ((fields options !! "assertionField" = None
    \/ fields options !! "assertionField" = Some (JStr "")) ->
   assertion_of self params = read params "assertion")
  /\ (forall field : string,
        fields options !! "assertionField" = Some (JStr field) ->
        field <> "" ->
        assertion_of self params = read params field).
Proof.
  intros Hnew. unfold Strategy in Hnew. destruct (negb _); [discriminate|].
  injection Hnew as <-. unfold assertion_of, opt, or_else. simpl. split.
  - intros [-> | ->]; reflexivity.
  - intros field -> Hne. simpl.
    destruct (String.eqb field "") eqn:E; [|reflexivity].
    apply String.eqb_eq in E. contradiction.
Qed.

(** The [passReqToCallback] option is tested for truthiness: any truthy
    value, not only [true], puts the request first among the callback's
    arguments, and any falsy value leaves it out. *)
Theorem passReqToCallback_is_tested_for_truthiness (options : Options) (verify : Verify)
    (self : StrategyInstance) (req : Request) (params : Body)
    (chunks : list Chunk) (result email flag : JsVal) :
  Strategy options (Some verify) = Normal self ->
  fields options !! "passReqToCallback" = Some flag ->
  body req = Some params ->
  truthy (assertion_of self params) = true ->
  _https self (verify_options (verify_query self (assertion_of self params)))
              (verify_query self (assertion_of self params))
  = Response (map Data chunks ++ [End]) ->
  JSON_parse (received chunks) = Normal result ->
  get result "status" = Normal (JStr "okay") ->
  get result "email" = Normal email ->
  verify_calls (authenticate self req)
  = [if truthy flag then [AReq req; AVal email; ADone] else [AVal email; ADone]].
Proof.
  intros Hnew Hflag Hbody Hassertion Htransport Hparse Hstatus Hemail.
  rewrite (okay_trace self req params Hbody Hassertion chunks Htransport result email)
    by assumption.
  simpl. rewrite verify_calls_reports.
  unfold Strategy in Hnew. destruct (negb _); [discriminate|].
  injection Hnew as <-. unfold verify_args, opt. simpl. rewrite Hflag. reflexivity.
Qed.

End Strategy.

Example parse_okay_response :
  Fixture.parse_flat (Fixture.okay_response "user@example.com")
  = Normal (JObj [("status", JStr "okay"); ("email", JStr "user@example.com")]).
Proof. reflexivity. Qed.

Example parse_truncated_response :
  Fixture.parse_flat "{" = Throw Fixture.SyntaxError.
Proof. reflexivity. Qed.

Example example_strategy_constructed t verify :
  Strategy t (Fixture.example_options t) (Some verify)
  = Normal (Fixture.example_strategy t verify).
Proof. reflexivity. Qed.

Example escape_audience : escape "http://example.com" = "http%3A%2F%2Fexample.com".
Proof. reflexivity. Qed.


(** ** Concrete runs *)

Import Fixture.

Local Abbreviation assertion_abc := (plain {["assertion" := JStr "abc"]}).

Local Abbreviation returns_ok := (fun o : Outcome => @eq_refl (option JsVal) None).

(** The strategy for [http://example.com] handling a request whose body
    holds the assertion ["abc"], with the given answer and callback. *)
Local Abbreviation attempt transport verify :=
  (authenticate parse_flat ascii_text returning (example_strategy transport verify) (request_with "abc")).

Local Abbreviation okay_attempt verify :=
  (attempt (answering [okay_response "user@example.com"]) verify).

Local Abbreviation okay_strategy verify :=
  (example_strategy (answering [okay_response "user@example.com"]) verify).

Local Abbreviation okay_result :=
  (JObj [("status", JStr "okay"); ("email", JStr "user@example.com")]).

Lemma resolution_decides_outcome_witness :
  outcomes (okay_attempt (calls_back (Error_ "database down") alice JUndefined))
  = [Error (Error_ "database down")]
  /\ outcomes (okay_attempt (calls_back JNull (JBool false) (JStr "unknown user")))
     = [Fail (JStr "unknown user")]
  /\ outcomes (okay_attempt (calls_back_later JNull alice JUndefined))
     = [Success alice JUndefined].
Proof.
  split; [|split].
  - refine (proj1 (resolution_decides_outcome parse_flat ascii_text returning returns_ok
                     (okay_strategy (calls_back (Error_ "database down") alice JUndefined))
                     (request_with "abc") assertion_abc eq_refl eq_refl
                     (map Bytes [okay_response "user@example.com"]) eq_refl
                     okay_result (JStr "user@example.com") (Error_ "database down") alice JUndefined
                     eq_refl eq_refl eq_refl _) _).
    + left. split; reflexivity.
    + reflexivity.
  - refine (proj1 (proj2 (resolution_decides_outcome parse_flat ascii_text returning returns_ok
                     (okay_strategy (calls_back JNull (JBool false) (JStr "unknown user")))
                     (request_with "abc") assertion_abc eq_refl eq_refl
                     (map Bytes [okay_response "user@example.com"]) eq_refl
                     okay_result (JStr "user@example.com") JNull (JBool false) (JStr "unknown user")
                     eq_refl eq_refl eq_refl _)) _ _).
    + left. split; reflexivity.
    + reflexivity.
    + reflexivity.
  - refine (proj2 (proj2 (resolution_decides_outcome parse_flat ascii_text returning returns_ok
                     (okay_strategy (calls_back_later JNull alice JUndefined))
                     (request_with "abc") assertion_abc eq_refl eq_refl
                     (map Bytes [okay_response "user@example.com"]) eq_refl
                     okay_result (JStr "user@example.com") JNull alice JUndefined
                     eq_refl eq_refl eq_refl _)) _ _).
    + right. split; reflexivity.
    + reflexivity.
    + reflexivity.
Defined.

Lemma missing_assertion_fails_witness :
  authenticate parse_flat ascii_text returning
    (example_strategy (answering [okay_response "user@example.com"]) never_calls_back)
    {| body := Some (plain {["token" := JStr "abc"]}) |}
  = [Report (Fail (BadRequestError (JStr "Missing assertion")))]
  /\ outbound
       (authenticate parse_flat ascii_text returning
          (example_strategy (answering [okay_response "user@example.com"]) never_calls_back)
          {| body := Some (plain {["token" := JStr "abc"]}) |})
     = [].
Proof.
  apply (missing_assertion_fails parse_flat ascii_text returning returns_ok). right.
  exists (plain {["token" := JStr "abc"]}).
  split; [reflexivity|]. left. split; reflexivity.
Defined.

(** C2, as stated, fails: a body without entries lacks the field
    [constructor], but the read finds the function that every object
    inherits; it is truthy, so the outbound call is made, with an empty
    assertion, and no failure is reported. *)
Lemma missing_assertion_counterexample :
  exists self,
    Strategy (answering [])
      {| fields := {["audience" := JStr "http://example.com";
                     "assertionField" := JStr "constructor"]};
         transport := Some (answering [okay_response "user@example.com"]) |}
      (Some never_calls_back)
    = Normal self
    /\ own (plain ∅) !! ToString (_assertionField self) = None
    /\ authenticate parse_flat ascii_text returning self {| body := Some (plain ∅) |}
       = [Outbound (verify_options "assertion=&audience=http%3A%2F%2Fexample.com")
                   "assertion=&audience=http%3A%2F%2Fexample.com" "utf8";
          CallVerify [AVal (JStr "user@example.com"); ADone]].
Proof. eexists. repeat split. Qed.

Lemma rejection_is_error_witness :
  outcomes (attempt (answering [failure_response "invalid signature"]) never_calls_back)
  = [Error (VerificationError (JStr "invalid signature"))]
  /\ get (VerificationError (JStr "invalid signature")) "message"
     = Normal (JStr "invalid signature").
Proof.
  apply (rejection_is_error parse_flat ascii_text returning returns_ok
           (example_strategy (answering [failure_response "invalid signature"])
                             never_calls_back)
           (request_with "abc") assertion_abc eq_refl eq_refl
           (map Bytes [failure_response "invalid signature"]) eq_refl
           (JObj [("status", JStr "failure"); ("reason", JStr "invalid signature")])
           (JStr "failure") (JStr "invalid signature")).
  - reflexivity.
  - reflexivity.
  - discriminate.
  - reflexivity.
Defined.

Lemma callback_exception_is_reported_witness :
  outcomes (okay_attempt (throws (Error_ "boom"))) = [Error (Error_ "boom")]
  /\ uncaught (okay_attempt (throws (Error_ "boom"))) = [].
Proof.
  apply (callback_exception_is_reported parse_flat ascii_text returning returns_ok
           (okay_strategy (throws (Error_ "boom")))
           (request_with "abc") assertion_abc eq_refl eq_refl
           (map Bytes [okay_response "user@example.com"]) eq_refl okay_result
           (JStr "user@example.com") (Error_ "boom"));
    reflexivity.
Defined.

Lemma missing_email_reaches_callback_witness :
  verify_calls
    (attempt (answering ["{" ++ quoted "status" ++ ":" ++ quoted "okay" ++ "}"])
             (calls_back JNull alice JUndefined))
  = [[AVal JUndefined; ADone]].
Proof.
  rewrite (missing_email_reaches_callback parse_flat ascii_text returning returns_ok
             (example_strategy
                (answering ["{" ++ quoted "status" ++ ":" ++ quoted "okay" ++ "}"])
                (calls_back JNull alice JUndefined))
             (request_with "abc") assertion_abc eq_refl eq_refl
             (map Bytes ["{" ++ quoted "status" ++ ":" ++ quoted "okay" ++ "}"]) eq_refl
             [("status", JStr "okay")] eq_refl eq_refl).
  - reflexivity.
  - intros v [H | []]. discriminate.
Defined.


Lemma outbound_body_is_form_encoded_witness :
  map (fun call => snd (fst call))
      (outbound (attempt (answering [okay_response "user@example.com"]) never_calls_back))
  = ["assertion=abc&audience=http%3A%2F%2Fexample.com"].
Proof.
  apply (outbound_body_is_form_encoded parse_flat ascii_text
           (answering []) returning
           (example_options (answering [okay_response "user@example.com"]))
           never_calls_back
           (okay_strategy never_calls_back) (request_with "abc") assertion_abc);
    reflexivity.
Defined.

Lemma construction_requires_audience_and_callback_witness :
  Strategy (answering []) {| fields := ∅; transport := None |} (Some never_calls_back)
  = Throw (Error_ "BrowserID authentication requires an audience option")
  /\ (exists e, Strategy (answering []) (example_options (answering [])) None = Throw e)
  /\ (exists self,
        Strategy (answering []) (example_options (answering [])) (Some never_calls_back)
        = Normal self
        /\ _audience self = JStr "http://example.com"
        /\ _verify self = never_calls_back).
Proof.
  split; [|split].
  - apply construction_requires_audience_and_callback. left. reflexivity.
  - apply construction_requires_audience_and_callback. reflexivity.
  - apply (proj2 (proj2 (construction_requires_audience_and_callback
                           (answering []) (example_options (answering []))
                           (Some never_calls_back)))).
    + reflexivity.
    + discriminate.
    + reflexivity.
Defined.

Local Abbreviation passing_options flag :=
  ({| fields := {["audience" := JStr "http://example.com"; "passReqToCallback" := flag]};
      transport := Some (answering [okay_response "user@example.com"]) |}).

Local Abbreviation passing_strategy flag :=
  ({| name := "browserid";
      _verify := never_calls_back;
      _passReqToCallback := flag;
      _audience := JStr "http://example.com";
      _assertionField := JStr "assertion";
      _https := answering [okay_response "user@example.com"] |}).

Lemma passReqToCallback_decides_arguments_witness :
  verify_calls (authenticate parse_flat ascii_text returning (passing_strategy (JBool true)) (request_with "abc"))
  = [[AReq (request_with "abc"); AVal (JStr "user@example.com"); ADone]]
  /\ verify_calls (authenticate parse_flat ascii_text returning (passing_strategy (JBool false)) (request_with "abc"))
     = [[AVal (JStr "user@example.com"); ADone]].
Proof.
  split.
  - refine (proj1 (passReqToCallback_decides_arguments parse_flat ascii_text (answering []) returning returns_ok
                     (passing_options (JBool true)) never_calls_back
                     (passing_strategy (JBool true)) (request_with "abc") assertion_abc
                     (map Bytes [okay_response "user@example.com"])
                     okay_result (JStr "user@example.com")
                     eq_refl eq_refl eq_refl eq_refl eq_refl eq_refl eq_refl) _).
    reflexivity.
  - refine (proj2 (passReqToCallback_decides_arguments parse_flat ascii_text (answering []) returning returns_ok
                     (passing_options (JBool false)) never_calls_back
                     (passing_strategy (JBool false)) (request_with "abc") assertion_abc
                     (map Bytes [okay_response "user@example.com"])
                     okay_result (JStr "user@example.com")
                     eq_refl eq_refl eq_refl eq_refl eq_refl eq_refl eq_refl) _).
    left. reflexivity.
Defined.

Local Abbreviation failing_host :=
  (fun o : Outcome =>
     match o with
     | Error _ => Some (Error_ "host failure")
     | Success _ _ | Fail _ => None
     end).


(** C7, as stated, fails: an option named [passRequestToCallback] is not
    read by the constructor, and the callback is called without the
    request. *)
Lemma passRequestToCallback_counterexample :
  exists self,
    Strategy (answering [])
      {| fields := {["audience" := JStr "http://example.com";
                     "passRequestToCallback" := JBool true]};
         transport := Some (answering [okay_response "user@example.com"]) |}
      (Some never_calls_back)
    = Normal self
    /\ verify_calls (authenticate parse_flat ascii_text returning self (request_with "abc"))
       = [[AVal (JStr "user@example.com"); ADone]].
Proof. eexists. split; reflexivity. Qed.

(** C4, the failing input: when the connection is refused, the transport
    emits ['error'] on the request object, where nothing listens.  The one
    outbound call is made, no outcome is reported, and the error reaches
    the event loop uncaught; an error on the response, by contrast, is
    reported ([response_error_is_reported]). *)
Theorem request_error_goes_unreported :
  outbound (attempt (refusing ECONNREFUSED) (calls_back JNull alice JUndefined))
  = [(verify_options "assertion=abc&audience=http%3A%2F%2Fexample.com",
      "assertion=abc&audience=http%3A%2F%2Fexample.com", "utf8")]
  /\ outcomes (attempt (refusing ECONNREFUSED) (calls_back JNull alice JUndefined)) = []
  /\ uncaught (attempt (refusing ECONNREFUSED) (calls_back JNull alice JUndefined))
     = [ECONNREFUSED].
Proof. repeat split; reflexivity. Qed.

(** *** The scenarios of the specification *)

Example scenario_success :
  okay_attempt (calls_back JNull alice JUndefined)
  = [Outbound (verify_options "assertion=abc&audience=http%3A%2F%2Fexample.com")
              "assertion=abc&audience=http%3A%2F%2Fexample.com" "utf8";
     CallVerify [AVal (JStr "user@example.com"); ADone];
     Report (Success alice JUndefined)].
Proof. reflexivity. Qed.

Example scenario_not_json :
  outcomes (attempt (answering ["<html>"; "</html>"]) never_calls_back)
  = [Error SyntaxError].
Proof. reflexivity. Qed.

Example scenario_chunked :
  outcomes (attempt (answering ["{"; quoted "status"; ":"; quoted "failure"; ",";
                                quoted "reason"; ":"; quoted "expired"; "}"])
                    never_calls_back)
  = [Error (VerificationError (JStr "expired"))].
Proof. reflexivity. Qed.

Example content_length_header :
  headers (verify_options "assertion=abc&audience=http%3A%2F%2Fexample.com")
  = [("Host", JStr "verifier.login.persona.org");
     ("Content-Type", JStr "application/x-www-form-urlencoded");
     ("Content-Length", JNum 47)].
Proof. reflexivity. Qed.

(** ** Concrete runs of the further properties *)

Local Abbreviation sent_abc :=
  (Outbound (verify_options "assertion=abc&audience=http%3A%2F%2Fexample.com")
            "assertion=abc&audience=http%3A%2F%2Fexample.com" "utf8").

Lemma unparsable_response_is_error_witness :
  attempt (answering ["<html>"; "</html>"]) never_calls_back
  = [sent_abc; Report (Error SyntaxError)].
Proof.
  exact (unparsable_response_is_error parse_flat ascii_text returning returns_ok
           (example_strategy (answering ["<html>"; "</html>"]) never_calls_back)
           (request_with "abc") assertion_abc (map Bytes ["<html>"; "</html>"])
           eq_refl eq_refl eq_refl SyntaxError eq_refl).
Defined.

Lemma null_response_is_error_witness :
  authenticate (fun _ => Normal JNull) ascii_text returning
    (example_strategy (answering ["null"]) never_calls_back) (request_with "abc")
  = [sent_abc; Report (Error (TypeError "Cannot read property 'status' of null"))].
Proof.
  exact (null_response_is_error (fun _ => Normal JNull) ascii_text returning returns_ok
           (example_strategy (answering ["null"]) never_calls_back)
           (request_with "abc") assertion_abc (map Bytes ["null"])
           eq_refl eq_refl eq_refl JNull
           (TypeError "Cannot read property 'status' of null") eq_refl eq_refl).
Defined.

Local Abbreviation resetting :=
  ((fun _ _ => Response (map Data [Bytes "{"] ++ [ResError (Error_ "read ECONNRESET")]))
   : Transport).

Lemma response_error_is_reported_witness :
  outcomes (attempt resetting never_calls_back) = [Error (Error_ "read ECONNRESET")].
Proof.
  exact (response_error_is_reported parse_flat ascii_text returning returns_ok
           (example_strategy resetting never_calls_back)
           (request_with "abc") assertion_abc [Bytes "{"] (Error_ "read ECONNRESET")
           eq_refl eq_refl eq_refl).
Defined.

Lemma callback_called_iff_okay_witness :
  verify_calls (okay_attempt never_calls_back) <> []
  /\ List.length (verify_calls (okay_attempt never_calls_back)) <= 1.
Proof.
  destruct (callback_called_iff_okay parse_flat ascii_text returning returns_ok
              (okay_strategy never_calls_back) (request_with "abc") assertion_abc
              (map Bytes [okay_response "user@example.com"]) eq_refl eq_refl eq_refl)
    as [Hiff Hle].
  split; [|exact Hle].
  apply Hiff. exists okay_result. split; reflexivity.
Defined.

Lemma at_most_one_outbound_call_witness :
  List.length (outbound (okay_attempt never_calls_back)) <= 1
  /\ outbound (authenticate parse_flat ascii_text returning
                 (okay_strategy never_calls_back) empty_request) = [].
Proof.
  split.
  - exact (proj1 (at_most_one_outbound_call parse_flat ascii_text returning
                    (okay_strategy never_calls_back) (request_with "abc"))).
  - exact (proj1 (proj2 (at_most_one_outbound_call parse_flat ascii_text returning
                           (okay_strategy never_calls_back) empty_request))
                 (or_introl eq_refl)).
Defined.

Lemma object_assertion_is_sent_empty_witness :
  outbound (authenticate parse_flat ascii_text returning (okay_strategy never_calls_back)
              {| body := Some (plain {["assertion" := JObj [("0", JStr "abc")]]}) |})
  = [(verify_options "assertion=&audience=http%3A%2F%2Fexample.com",
      "assertion=&audience=http%3A%2F%2Fexample.com", "utf8")].
Proof.
  exact (object_assertion_is_sent_empty parse_flat ascii_text returning
           (okay_strategy never_calls_back)
           {| body := Some (plain {["assertion" := JObj [("0", JStr "abc")]]}) |}
           (plain {["assertion" := JObj [("0", JStr "abc")]]}) [("0", JStr "abc")]
           eq_refl eq_refl).
Defined.

Local Abbreviation stalling :=
  ((fun _ _ => Response (map Data [Bytes "{"; Bytes "}"])) : Transport).

Lemma no_outcome_before_end_witness :
  attempt stalling never_calls_back = [sent_abc].
Proof.
  exact (no_outcome_before_end parse_flat ascii_text returning
           (example_strategy stalling never_calls_back)
           (request_with "abc") assertion_abc [Bytes "{"; Bytes "}"]
           eq_refl eq_refl eq_refl).
Defined.


Local Abbreviation scoped_response :=
  ("{" ++ quoted "status" ++ ":" ++ quoted "okay" ++ ","
       ++ quoted "email" ++ ":" ++ quoted "user@example.com" ++ ","
       ++ quoted "audience" ++ ":" ++ quoted "http://other.example" ++ "}")%string.

Lemma only_status_and_email_are_read_witness :
  tick (on_end parse_flat returning (okay_strategy (calls_back JNull alice JUndefined))
          (request_with "abc") (okay_response "user@example.com"))
  = tick (on_end parse_flat returning (okay_strategy (calls_back JNull alice JUndefined))
            (request_with "abc") scoped_response).
Proof.
  exact (only_status_and_email_are_read parse_flat returning
           (okay_strategy (calls_back JNull alice JUndefined)) (request_with "abc")
           (okay_response "user@example.com") scoped_response
           okay_result
           (JObj [("status", JStr "okay"); ("email", JStr "user@example.com");
                  ("audience", JStr "http://other.example")])
           (JStr "user@example.com")
           eq_refl eq_refl eq_refl eq_refl eq_refl eq_refl).
Defined.

Local Abbreviation calls_back_twice :=
  ((fun _ => {| during := [CallDone JNull alice JUndefined];
                afterwards := [(JNull, JBool false, JStr "too late")] |}) : Verify).

Lemma every_done_call_reports_witness :
  outcomes (okay_attempt calls_back_twice)
  = [Success alice JUndefined; Fail (JStr "too late")]
  /\ List.length (outcomes (okay_attempt calls_back_twice)) = 2.
Proof.
  exact (every_done_call_reports parse_flat ascii_text returning returns_ok
           (okay_strategy calls_back_twice)
           (request_with "abc") assertion_abc (map Bytes [okay_response "user@example.com"])
           eq_refl eq_refl eq_refl okay_result (JStr "user@example.com")
           eq_refl eq_refl eq_refl eq_refl).
Defined.

Local Abbreviation called_with_email := (CallVerify [AVal (JStr "user@example.com"); ADone]).

Lemma success_only_through_callback_witness :
  truthy alice = true
  /\ (exists options payload encoding,
        In (Outbound options payload encoding) [sent_abc; called_with_email])
  /\ (exists args err,
        In (CallVerify args) [sent_abc; called_with_email]
        /\ made_call (calls_back JNull alice JUndefined args) err alice JUndefined
        /\ truthy err = false).
Proof.
  exact (proj1 (success_only_through_callback parse_flat ascii_text returning returns_ok
                  (okay_strategy (calls_back JNull alice JUndefined)) (request_with "abc"))
               [sent_abc; called_with_email] [] alice JUndefined eq_refl).
Defined.

Lemma fail_is_bad_request_or_from_callback_witness :
  (JStr "unknown user" = BadRequestError (JStr "Missing assertion")
   /\ [sent_abc; called_with_email] = [] /\ @nil Event = []
   /\ outbound (okay_attempt (calls_back JNull (JBool false) (JStr "unknown user"))) = [])
  \/ (exists args err user,
        In (CallVerify args) [sent_abc; called_with_email]
        /\ made_call (calls_back JNull (JBool false) (JStr "unknown user") args)
                     err user (JStr "unknown user")
        /\ truthy err = false
        /\ truthy user = false).
Proof.
  exact (proj1 (fail_is_bad_request_or_from_callback parse_flat ascii_text returning
                  returns_ok
                  (okay_strategy (calls_back JNull (JBool false) (JStr "unknown user")))
                  (request_with "abc"))
               [sent_abc; called_with_email] [] (JStr "unknown user") eq_refl).
Defined.

Lemma request_error_reports_nothing_witness :
  outcomes (attempt (refusing ECONNREFUSED) (calls_back JNull alice JUndefined)) = []
  /\ verify_calls (attempt (refusing ECONNREFUSED) (calls_back JNull alice JUndefined))
     = [].
Proof.
  exact (request_error_reports_nothing parse_flat ascii_text returning
           (example_strategy (refusing ECONNREFUSED) (calls_back JNull alice JUndefined))
           (request_with "abc") assertion_abc ECONNREFUSED eq_refl eq_refl eq_refl).
Defined.

Local Abbreviation field_options field :=
  ({| fields := {["audience" := JStr "http://example.com";
                  "assertionField" := JStr field]};
      transport := None |}).

Local Abbreviation field_strategy field :=
  ({| name := "browserid";
      _verify := never_calls_back;
      _passReqToCallback := JUndefined;
      _audience := JStr "http://example.com";
      _assertionField := JStr field;
      _https := answering [] |}).

Lemma assertion_field_defaults_witness :
  assertion_of (example_strategy (answering []) never_calls_back) assertion_abc
  = JStr "abc"
  /\ assertion_of (field_strategy "token") assertion_abc = JUndefined
  /\ assertion_of (field_strategy "constructor") assertion_abc = JFunction "Object".
Proof.
  assert (Htoken : "token" <> "") by discriminate.
  assert (Hconstructor : "constructor" <> "") by discriminate.
  split; [|split].
  - exact (proj1 (assertion_field_defaults (answering [])
                    (example_options (answering [])) never_calls_back
                    (example_strategy (answering []) never_calls_back)
                    assertion_abc eq_refl)
                 (or_introl eq_refl)).
  - exact (proj2 (assertion_field_defaults (answering [])
                    (field_options "token") never_calls_back (field_strategy "token")
                    assertion_abc eq_refl)
                 "token" eq_refl Htoken).
  - exact (proj2 (assertion_field_defaults (answering [])
                    (field_options "constructor") never_calls_back
                    (field_strategy "constructor") assertion_abc eq_refl)
                 "constructor" eq_refl Hconstructor).
Defined.

Lemma passReqToCallback_is_tested_for_truthiness_witness :
  verify_calls (authenticate parse_flat ascii_text returning (passing_strategy (JNum 1))
                  (request_with "abc"))
  = [[AReq (request_with "abc"); AVal (JStr "user@example.com"); ADone]]
  /\ verify_calls (authenticate parse_flat ascii_text returning (passing_strategy (JStr ""))
                     (request_with "abc"))
     = [[AVal (JStr "user@example.com"); ADone]].
Proof.
  split.
  - exact (passReqToCallback_is_tested_for_truthiness parse_flat ascii_text (answering [])
             returning returns_ok
             (passing_options (JNum 1)) never_calls_back
             (passing_strategy (JNum 1)) (request_with "abc") assertion_abc
             (map Bytes [okay_response "user@example.com"]) okay_result
             (JStr "user@example.com") (JNum 1)
             eq_refl eq_refl eq_refl eq_refl eq_refl eq_refl eq_refl eq_refl).
  - exact (passReqToCallback_is_tested_for_truthiness parse_flat ascii_text (answering [])
             returning returns_ok
             (passing_options (JStr "")) never_calls_back
             (passing_strategy (JStr "")) (request_with "abc") assertion_abc
             (map Bytes [okay_response "user@example.com"]) okay_result
             (JStr "user@example.com") (JStr "")
             eq_refl eq_refl eq_refl eq_refl eq_refl eq_refl eq_refl eq_refl).
Defined.

Lemma form_body_has_two_parameters_witness :
  verify_query (example_strategy (answering []) never_calls_back) (JStr "a&audience=x")
  = "assertion=a%26audience%3Dx&audience=http%3A%2F%2Fexample.com"
  /\ occurs "&" (escape "a&audience=x") = false
  /\ occurs "=" (escape "a&audience=x") = false
  /\ occurs "&" (escape "http://example.com") = false
  /\ occurs "=" (escape "http://example.com") = false.
Proof.
  exact (form_body_has_two_parameters (example_strategy (answering []) never_calls_back)
           "a&audience=x" "http://example.com" eq_refl).
Defined.

Lemma distinct_assertions_distinct_bodies_witness :
  verify_query (example_strategy (answering []) never_calls_back) (JStr "a b")
  <> verify_query (example_strategy (answering []) never_calls_back) (JStr "a+b").
Proof.
  apply distinct_assertions_distinct_bodies. discriminate.
Defined.

